(** * eKart order backend (server.ts): a shallow embedding and its properties

    The server keeps one SQLite table [orders], a constant product list
    [PRODUCTS], and three JSON routes:
      - GET  /api/admin/orders
      - POST /api/orders
      - POST /api/verify-payment   (answers from a 2000 ms timer callback)
    plus the helper [sendOrderEmail].

    Modelling conventions.
      - JS numbers are IEEE binary64 doubles: [spec_float] with the Standard
        Library's operations at precision 53 and maximal exponent 1024
        ([SFadd], [SFmul], [SFeqb]), which round to nearest, ties to even.
      - The columns a row is read back with are what SQLite keeps: a NaN
        bound to [total] is stored as NULL, -0 as 0, every other number as
        itself.
      - JS strings are [string]; the two string tests of the source
        ([/^\d{12}$/] and [startsWith('2026')]) only look at ASCII characters.
      - The table is the list of its rows in rowid order; each SQL statement of
        the source is one function on that list.
      - [Math.random()] and [CURRENT_TIMESTAMP] are inputs of order creation;
        the host's number formatting ([toLocaleString]), [process.env] and
        the mail transport are inputs of [sendOrderEmail].
      - A promise that rejects / a statement that throws is [Throw]; one that
        completes is [Ok]. *)

From Stdlib Require Import ZArith List String Ascii Bool Lia.
From Stdlib Require Import Permutation Sorted DecimalString SpecFloat.
From Stdlib Require OrderedTypeEx DecimalPos DecimalZ.
Import ListNotations.
Local Open Scope string_scope.
Local Open Scope Z_scope.

(** ** JS numbers *)

Definition number := spec_float.

(** [x + y], [x * y] and [x === y] on numbers. *)
Definition js_add (x y : number) : number := SFadd 53 1024 x y.
Definition js_mul (x y : number) : number := SFmul 53 1024 x y.
Definition strict_eq (x y : number) : bool := SFeqb x y.

(** The double written as the integer literal [z] (exact up to 2^53). *)
Definition num (z : Z) : number := binary_normalize 53 1024 z 0 false.

(** ** Data model *)

Module Product.
Record t := mk { id : number; name : string; price : number }.
End Product.

Module Item.
(** One element of [req.body.items]. [id] is [Some x] when the JSON value is
    the number [x] and [None] for any other value (no product id is strictly
    equal to it); [quantity] is the number the multiplication converts the
    JSON value to (NaN when it is missing or not numeric). *)
Record t := mk { id : option number; quantity : number }.
End Item.

Module Customer.
Record t := mk { firstName : string; lastName : string;
                 email : string; address : string }.
End Customer.

(** The [status] column only ever receives the literals ['pending'] and
    ['paid']. *)
Inductive OrderStatus := pending | paid.

Module Order.
(** A row of [orders]; [transaction_id] is NULL ([None]) until set, and
    [total] is NULL when the number bound to it was NaN. *)
Record t := mk {
  id : string;
  customer_name : string;
  email : string;
  address : string;
  total : option number;
  status : OrderStatus;
  transaction_id : option string;
  created_at : string
}.

(** [{ ...order, status: 'paid' }] *)
Definition with_status (o : t) (s : OrderStatus) : t :=
  mk (id o) (customer_name o) (email o) (address o) (total o) s
     (transaction_id o) (created_at o).
End Order.

Definition Table := list Order.t.

Definition PRODUCTS : list Product.t :=
  [ Product.mk (num 1) "Mechanical RGB Keyboard" (num 10499);
    Product.mk (num 2) "4K UltraWide Monitor" (num 39999);
    Product.mk (num 3) "Wireless Gaming Mouse" (num 6499);
    Product.mk (num 4) "Noise Cancelling Headphones" (num 19999);
    Product.mk (num 5) "Gaming PC Case" (num 12999);
    Product.mk (num 6) "Ergonomic Office Chair" (num 27999);
    Product.mk (num 7) "Streamer Microphone" (num 14999);
    Product.mk (num 8) "External SSD 2TB" (num 15999);
    Product.mk (num 9) "Pendrive" (num 1) ].

(** ** HTTP responses *)

(** The value a handler hands to [res.json], which serialises it with
    [JSON.stringify] (a NaN or infinite number is written [null]). *)
Inductive Body :=
| JsonOrders (rows : list Order.t)
| JsonCreated (orderId : string) (total : number)
| JsonSuccess
| JsonError (error : string).

Record Response := mkResponse { code : Z; body : Body }.

(** [res.json(b)] answers 200; [res.status(c).json(b)] answers [c]. *)
Definition res_json (b : Body) : Response := mkResponse 200 b.
Definition res_status_json (c : Z) (b : Body) : Response := mkResponse c b.

Inductive Outcome (A : Type) :=
| Ok (a : A)
| Throw (error : string).
Arguments Ok {A} a.
Arguments Throw {A} error.

(** ** Pricing: the loop of POST /api/orders *)

(** [PRODUCTS.find(p => p.id === item.id)] *)
Definition find_product (pid : option number) : option Product.t :=
  match pid with
  | Some x => find (fun p => strict_eq (Product.id p) x) PRODUCTS
  | None => None
  end.

(** One iteration of [for (const item of items)]:
    [calculatedTotal += product.price * item.quantity]. *)
Definition add_item (calculatedTotal : number) (item : Item.t) : number :=
  match find_product (Item.id item) with
  | Some product =>
      js_add calculatedTotal (js_mul (Product.price product) (Item.quantity item))
  | None => calculatedTotal
  end.

(** [let calculatedTotal = 0; for (const item of items) ...] *)
Definition calculatedTotal (items : list Item.t) : number :=
  fold_left add_item items (num 0).

(** The total as the specification words it: the sum, over the items whose
    product id is in the catalog, of unit price times quantity. The sum and
    the product are those of JS numbers, the terms added to 0 in the order of
    the items. *)
Definition in_catalog (pid : option number) : bool :=
  match pid with
  | Some x => existsb (fun p => strict_eq (Product.id p) x) PRODUCTS
  | None => false
  end.

Definition unitPrice (pid : option number) : number :=
  match find_product pid with
  | Some product => Product.price product
  | None => num 0
  end.

Definition js_sum (terms : list number) : number :=
  fold_left js_add terms (num 0).

Definition spec_total (items : list Item.t) : number :=
  js_sum (map (fun it => js_mul (unitPrice (Item.id it)) (Item.quantity it))
              (filter (fun it => in_catalog (Item.id it)) items)).

(** ** Order ids: [`EK-${Math.floor(Math.random() * 1000000)}`] *)

(** [Math.random()] is some double in [0, 1). Every such double is
    [k * 2^e] for an integer [0 <= k < 2^53] and an exponent
    [-1074 <= e <= -53]; [double_of k e] is that double with its mantissa in
    canonical position. The generator's state [seed] picks them: the value is
    [seed / 2^53] for [0 <= seed < 2^53], and the quotient of [seed] by [2^53]
    scales it down to reach the doubles between those. *)
Definition random_den : Z := 2 ^ 53.

Definition double_of (k e : Z) : number :=
  match k with
  | Zpos p =>
      let j := Z.min (53 - Zpos (digits2_pos p)) (e + 1074) in
      S754_finite false (Z.to_pos (Zpos p * 2 ^ j)) (e - j)
  | _ => S754_zero false
  end.

Definition Math_random (seed : Z) : number :=
  double_of (seed mod random_den) (- 53 - (seed / random_den) mod 1022).

(** [Math.floor(x)] as an integer, for a finite [x] (0 also stands for NaN
    and the infinities, which the product below never is). *)
Definition Math_floor_Z (x : number) : Z :=
  match x with
  | S754_finite s m e =>
      if 0 <=? e then cond_Zopp s (Zpos m) * 2 ^ e
      else cond_Zopp s (Zpos m) / 2 ^ (- e)
  | _ => 0
  end.

(** [Math.floor(Math.random() * 1000000)] *)
Definition order_number (seed : Z) : Z :=
  Math_floor_Z (js_mul (Math_random seed) (num 1000000)).

(** Number-to-string conversion of a template literal, for an integer below
    10^21: its decimal digits. *)
Definition string_of_Z (n : Z) : string :=
  NilZero.string_of_int (Z.to_int n).

Definition orderId_of (seed : Z) : string :=
  "EK-" ++ string_of_Z (order_number seed).

(** ** The [orders] table and the four statements the routes prepare *)

Definition has_id (oid : string) (o : Order.t) : bool :=
  String.eqb (Order.id o) oid.

(** [SELECT * FROM orders WHERE id = ?], [.get]: the first matching row. *)
Definition select_by_id (db : Table) (oid : string) : option Order.t :=
  find (has_id oid) db.

(** [INSERT INTO orders (id, customer_name, email, address, total, status)
    VALUES (?, ?, ?, ?, ?, ?)]: [id] is the PRIMARY KEY, so a row whose id is
    already present makes [stmt.run] throw; [transaction_id] is left NULL and
    [created_at] takes CURRENT_TIMESTAMP ([now]). The number bound to [total]
    is read back as the same number, with two exceptions: SQLite stores a
    NaN as NULL, and the INTEGER affinity of the column turns -0 into the
    integer 0. *)
Definition sql_number (x : number) : option number :=
  match x with
  | S754_nan => None
  | S754_zero _ => Some (S754_zero false)
  | _ => Some x
  end.

Definition insert_order (db : Table)
    (oid cname mail addr : string) (tot : number) (st : OrderStatus)
    (now : string) : Outcome Table :=
  if existsb (has_id oid) db
  then Throw "UNIQUE constraint failed: orders.id"
  else Ok (db ++ [Order.mk oid cname mail addr (sql_number tot) st None now])%list.

(** [UPDATE orders SET status = 'paid', transaction_id = ? WHERE id = ?]:
    the new table and [result.changes]. *)
Definition set_paid (txid oid : string) (o : Order.t) : Order.t :=
  if has_id oid o
  then Order.mk (Order.id o) (Order.customer_name o) (Order.email o)
                (Order.address o) (Order.total o) paid (Some txid)
                (Order.created_at o)
  else o.

Definition update_paid (db : Table) (txid oid : string) : Table * Z :=
  (map (set_paid txid oid) db,
   Z.of_nat (List.length (filter (has_id oid) db))).

(** [SELECT * FROM orders ORDER BY created_at DESC]: the rows sorted on the
    text of [created_at], greatest first (an insertion sort stands for the
    engine's sorter). *)
Definition created_geb (a b : Order.t) : bool :=
  String.leb (Order.created_at b) (Order.created_at a).

Fixpoint insert_desc (o : Order.t) (l : list Order.t) : list Order.t :=
  match l with
  | [] => [o]
  | x :: l' => if created_geb o x then o :: l else x :: insert_desc o l'
  end.

Definition select_all_desc (db : Table) : list Order.t :=
  fold_right insert_desc [] db.

(** ** GET /api/admin/orders *)

Definition get_admin_orders (db : Table) : Response * Table :=
  (res_json (JsonOrders (select_all_desc db)), db).

(** ** POST /api/orders *)

Definition post_orders (db : Table) (items : list Item.t)
    (customer : Customer.t) (seed : Z) (now : string) : Response * Table :=
  let total := calculatedTotal items in
  let orderId := orderId_of seed in
  match insert_order db orderId
          (Customer.firstName customer ++ " " ++ Customer.lastName customer)
          (Customer.email customer) (Customer.address customer)
          total pending now with
  | Ok db' => (res_json (JsonCreated orderId total), db')
  | Throw _ => (res_status_json 500 (JsonError "Failed to create order"), db)
  end.

(** ** Notifier: [sendOrderEmail] *)

Module Mail.
(** The options handed to [transporter.sendMail]. *)
Record t := mk { from : string; to : string; subject : string; html : string }.
End Mail.

(** The second parameter of [sendOrderEmail]: ['success' | 'failed']. *)
Inductive MailStatus := success | failed.

(** [process.env], the behaviour of the mail transport ([sendMail m] is
    [Ok tt] when the promise resolves and [Throw e] when it rejects) and the
    host's [Number.prototype.toLocaleString]. *)
Record Env := mkEnv {
  GMAIL_USER : option string;
  GMAIL_APP_PASSWORD : option string;
  sendMail : Mail.t -> Outcome unit;
  toLocaleString : number -> string
}.

(** What the process does besides answering: mails delivered, console
    lines. *)
Record IO := mkIO { sent : list Mail.t; console : list string }.

Definition console_log (io : IO) (line : string) : IO :=
  mkIO (sent io) (console io ++ [line])%list.

(** [!process.env.X]: an unset or empty variable is falsy. *)
Definition falsy (v : option string) : bool :=
  match v with
  | None => true
  | Some s => String.eqb s ""
  end.

Definition env_text (v : option string) : string :=
  match v with
  | Some s => s
  | None => "undefined"
  end.

Definition dquote : string := String (ascii_of_nat 34) EmptyString.

Definition mail_subject (order : Order.t) (status : MailStatus) : string :=
  match status with
  | success => "Order Confirmed - " ++ Order.id order
  | failed => "Order Payment Failed - " ++ Order.id order
  end.

Definition nl : string := String (ascii_of_nat 10) EmptyString.

(** The template literal [html]. Its substitutions are evaluated in order;
    [order.total.toLocaleString()] throws a TypeError when the row's total is
    NULL. *)
Definition order_email_html (env : Env) (order : Order.t)
    (status : MailStatus) : Outcome string :=
  match Order.total order with
  | None =>
      Throw "TypeError: Cannot read properties of null (reading 'toLocaleString')"
  | Some total =>
      Ok (nl
       ++ "    <div style=" ++ dquote ++ "font-family: sans-serif; max-width: 600px; margin: 0 auto; padding: 20px; border: 1px solid #eee; border-radius: 10px;" ++ dquote ++ ">" ++ nl
       ++ "      <h2 style=" ++ dquote ++ "color: #111;" ++ dquote ++ ">eKart Electronics</h2>" ++ nl
       ++ "      <p>Hi " ++ Order.customer_name order ++ ",</p>" ++ nl
       ++ "      "
       ++ match status with
          | success =>
              "<p>Thank you for your order! Your payment was successful and we're processing your items.</p>"
          | failed =>
              "<p>We're sorry, but your payment verification for order <strong>"
              ++ Order.id order
              ++ "</strong> failed. Please try again or contact support.</p>"
          end ++ nl
       ++ "      <div style=" ++ dquote ++ "background: #f9f9f9; padding: 15px; border-radius: 5px; margin: 20px 0;" ++ dquote ++ ">" ++ nl
       ++ "        <p><strong>Order ID:</strong> " ++ Order.id order ++ "</p>" ++ nl
       ++ "        <p><strong>Total Amount:</strong> ₹" ++ toLocaleString env total ++ "</p>" ++ nl
       ++ "        <p><strong>Status:</strong> "
       ++ match status with success => "Paid" | failed => "Failed" end
       ++ "</p>" ++ nl
       ++ "      </div>" ++ nl
       ++ "      <p>If you have any questions, reply to this email or contact us on WhatsApp.</p>" ++ nl
       ++ "      <hr style=" ++ dquote ++ "border: 0; border-top: 1px solid #eee; margin: 20px 0;" ++ dquote ++ " />" ++ nl
       ++ "      <p style=" ++ dquote ++ "font-size: 12px; color: #888;" ++ dquote ++ ">© 2026 eKart Electronics. All rights reserved.</p>" ++ nl
       ++ "    </div>" ++ nl
       ++ "  ")
  end.

(** The credentials check comes first; the subject and the html are built
    next, outside the [try]; only [transporter.sendMail] is inside it. *)
Definition sendOrderEmail (env : Env) (order : Order.t) (status : MailStatus)
    (io : IO) : Outcome unit * IO :=
  if falsy (GMAIL_USER env) || falsy (GMAIL_APP_PASSWORD env) then
    (Ok tt, console_log io "Gmail credentials not configured. Skipping email.")
  else
    match order_email_html env order status with
    | Throw error => (Throw error, io)
    | Ok html =>
        let mail :=
          Mail.mk (dquote ++ "eKart Support" ++ dquote ++ " <"
                     ++ env_text (GMAIL_USER env) ++ ">")
                  (Order.email order)
                  (mail_subject order status)
                  html in
        match sendMail env mail with
        | Ok _ =>
            (Ok tt,
             console_log (mkIO (sent io ++ [mail])%list (console io))
               ("Email sent to " ++ Order.email order
                  ++ " for order " ++ Order.id order))
        | Throw error =>
            (Ok tt, console_log io ("Error sending email: " ++ error))
        end
    end.

(** ** POST /api/verify-payment *)

(** [\d] *)
Definition is_digit (c : ascii) : bool :=
  let n := nat_of_ascii c in ((48 <=? n) && (n <=? 57))%nat.

(** [/^\d{12}$/.test(transactionId)] *)
Definition test_12_digits (transactionId : string) : bool :=
  (String.length transactionId =? 12)%nat
  && forallb is_digit (list_ascii_of_string transactionId).

(** [s.startsWith(searchString)] *)
Definition startsWith (s searchString : string) : bool :=
  String.prefix searchString s.

(** What a handler leaves behind: the answer ([None]: the request is never
    answered), the table, the side effects. *)
Record Handled := mkHandled {
  response : option Response;
  table : Table;
  effects : IO
}.

(** The synchronous part of the handler: the format check, then
    [setTimeout(callback, 2000)]. *)
Inductive Scheduled :=
| Responded (r : Response)
| SetTimeout (orderId transactionId : string).

Definition verify_payment_request (orderId transactionId : string) : Scheduled :=
  if negb (test_12_digits transactionId)
  then Responded (res_status_json 400
         (JsonError "Invalid Transaction ID. Must be 12 digits."))
  else SetTimeout orderId transactionId.

(** The timer callback, run on the table as it is when the timer fires. The
    table is read and written before the first [await], so the callback's
    use of the table is one step. The failure notice is awaited outside any
    [try]: when it throws, the callback's promise rejects and [res] is never
    used. The success notice is awaited inside the [try], whose [catch]
    answers 500 after the UPDATE has run. *)
Definition verify_payment_callback (env : Env) (db : Table) (io : IO)
    (orderId transactionId : string) : Handled :=
  match select_by_id db orderId with
  | None => mkHandled (Some (res_status_json 404 (JsonError "Order not found"))) db io
  | Some order =>
      if negb (startsWith transactionId "2026") then
        match sendOrderEmail env order failed io with
        | (Ok _, io') =>
            mkHandled
              (Some (res_status_json 400 (JsonError
                 "Transaction ID verification failed. For demo purposes, use an ID starting with '2026'.")))
              db io'
        | (Throw _, io') => mkHandled None db io'
        end
      else
        let (db', changes) := update_paid db transactionId orderId in
        if 0 <? changes then
          match sendOrderEmail env (Order.with_status order paid) success io with
          | (Ok _, io') => mkHandled (Some (res_json JsonSuccess)) db' io'
          | (Throw error, io') =>
              mkHandled (Some (res_status_json 500 (JsonError "Verification failed")))
                        db' (console_log io' error)
          end
        else mkHandled (Some (res_status_json 404 (JsonError "Order not found"))) db' io
  end.

(** The whole request when nothing else runs during the delay. *)
Definition post_verify_payment (env : Env) (db : Table) (io : IO)
    (orderId transactionId : string) : Handled :=
  match verify_payment_request orderId transactionId with
  | Responded r => mkHandled (Some r) db io
  | SetTimeout oid txid => verify_payment_callback env db io oid txid
  end.

(** ** The server as a transition system

    Requests arrive in any order; a verification that passed the format check
    waits in [timers] and its callback runs when [TimerFires] (timers of one
    delay fire in the order they were set). *)

Record State := mkState {
  orders : Table;
  timers : list (string * string);
  world : IO
}.

Inductive Event :=
| GetAdminOrders
| PostOrders (items : list Item.t) (customer : Customer.t) (seed : Z) (now : string)
| PostVerifyPayment (orderId transactionId : string)
| TimerFires (env : Env).

Definition init : State := mkState [] [] (mkIO [] []).

Definition step (s : State) (e : Event) : State * option Response :=
  match e with
  | GetAdminOrders =>
      let (r, db') := get_admin_orders (orders s) in
      (mkState db' (timers s) (world s), Some r)
  | PostOrders items customer seed now =>
      let (r, db') := post_orders (orders s) items customer seed now in
      (mkState db' (timers s) (world s), Some r)
  | PostVerifyPayment orderId transactionId =>
      match verify_payment_request orderId transactionId with
      | Responded r => (s, Some r)
      | SetTimeout oid txid =>
          (mkState (orders s) (timers s ++ [(oid, txid)])%list (world s), None)
      end
  | TimerFires env =>
      match timers s with
      | [] => (s, None)
      | (oid, txid) :: rest =>
          let h := verify_payment_callback env (orders s) (world s) oid txid in
          (mkState (table h) rest (effects h), response h)
      end
  end.

(** The state after a sequence of events, and the answers given on the way. *)
Definition run (s : State) (evs : list Event) : State :=
  fold_left (fun st e => fst (step st e)) evs s.

Fixpoint answers (s : State) (evs : list Event) : list (option Response) :=
  match evs with
  | [] => []
  | e :: evs' => snd (step s e) :: answers (fst (step s e)) evs'
  end.

(** ** The answers of verify-payment, by name *)

Definition bad_format : Response :=
  res_status_json 400 (JsonError "Invalid Transaction ID. Must be 12 digits.").
Definition order_not_found : Response :=
  res_status_json 404 (JsonError "Order not found").
Definition failed_demo_rule : Response :=
  res_status_json 400 (JsonError
    "Transaction ID verification failed. For demo purposes, use an ID starting with '2026'.").
Definition verification_failed : Response :=
  res_status_json 500 (JsonError "Verification failed").

(** ** Vocabulary of the statements *)

(** The item [{id: pid, quantity: qty}] with integer literals. *)
Definition item (pid qty : Z) : Item.t := Item.mk (Some (num pid)) (num qty).

Definition newer_or_same (a b : Order.t) : Prop := created_geb a b = true.

(** [sendOrderEmail] throws exactly when both credentials are set and the
    row's total is NULL. *)
Definition has_total (o : Order.t) : bool :=
  match Order.total o with
  | Some _ => true
  | None => false
  end.

Definition notice_throws (env : Env) (o : Order.t) : bool :=
  negb (falsy (GMAIL_USER env) || falsy (GMAIL_APP_PASSWORD env))
  && negb (has_total o).

Definition type_error : string :=
  "TypeError: Cannot read properties of null (reading 'toLocaleString')".

(** Half a unit in the last place after a right shift by [n] bits. *)
Definition half_ulp (n : Z) : Z := if n =? 0 then 0 else 2 ^ (n - 1).

(** The claim as worded, on carts of integer ids and quantities (a line is
    [(id, quantity)]): the total answered by a creation is the sum of unit
    price times quantity, as integers. *)
Definition cart_items (cart : list (Z * Z)) : list Item.t :=
  map (fun line => item (fst line) (snd line)) cart.

Definition exact_total (cart : list (Z * Z)) : Z :=
  fold_right
    (fun line acc =>
       Math_floor_Z (unitPrice (Some (num (fst line)))) * snd line + acc)
    0 cart.

Definition total_is_the_exact_sum : Prop :=
  forall (cart : list (Z * Z)) (db : Table) (customer : Customer.t)
         (seed : Z) (now : string),
    select_by_id db (orderId_of seed) = None ->
    exists total,
      fst (post_orders db (cart_items cart) customer seed now)
      = res_json (JsonCreated (orderId_of seed) total) /\
      Math_floor_Z total = exact_total cart.

(** The claim as worded: the total persisted with a new order is the sum
    that was answered. *)
Definition persisted_total_is_the_sum : Prop :=
  forall (db : Table) (items : list Item.t) (customer : Customer.t)
         (seed : Z) (now : string),
    select_by_id db (orderId_of seed) = None ->
    exists o,
      select_by_id (snd (post_orders db items customer seed now))
                   (orderId_of seed) = Some o /\
      Order.total o = Some (spec_total items).

(** A transaction id that passes both checks of verify-payment. *)
Definition accepted (txid : string) : Prop :=
  test_12_digits txid = true /\ startsWith txid "2026" = true.

(** A row is either pending with no transaction id, or paid with an accepted
    one. *)
Definition row_ok (o : Order.t) : Prop :=
  match Order.status o, Order.transaction_id o with
  | pending, None => True
  | paid, Some txid => accepted txid
  | _, _ => False
  end.

Definition state_ok (s : State) : Prop :=
  Forall row_ok (orders s) /\
  Forall (fun t => test_12_digits (snd t) = true) (timers s) /\
  NoDup (map Order.id (orders s)).

(** What may happen to a row over time: it keeps its id and its total, and
    once paid it stays paid. *)
Definition evolves (o o' : Order.t) : Prop :=
  Order.id o' = Order.id o /\
  Order.total o' = Order.total o /\
  (Order.status o = paid -> Order.status o' = paid).

Definition table_evolves (db db' : Table) : Prop :=
  forall o, In o db -> exists o', In o' db' /\ evolves o o'.

(** The ids that the creations of an event sequence generate, in order. *)
Fixpoint generated_ids (evs : list Event) : list string :=
  match evs with
  | [] => []
  | PostOrders _ _ seed _ :: evs' => orderId_of seed :: generated_ids evs'
  | _ :: evs' => generated_ids evs'
  end.

(** The claim as worded: no two creations generate the same id. *)
Definition generated_ids_unique : Prop :=
  forall evs : list Event, NoDup (generated_ids evs).

(** The claim as worded: once an order is paid, nothing that happens later
    changes its transaction id. *)
Definition transaction_id_set_once : Prop :=
  forall (evs evs' : list Event) (o o' : Order.t),
    select_by_id (orders (run init evs)) (Order.id o) = Some o ->
    Order.status o = paid ->
    select_by_id (orders (run init (evs ++ evs')%list)) (Order.id o) = Some o' ->
    Order.transaction_id o' = Order.transaction_id o.

(** ** Sample data *)

Definition alice : Customer.t :=
  Customer.mk "Alice" "Roe" "alice@example.org" "1 Main St".

Definition order7 : Order.t :=
  Order.mk "EK-7" "Alice Roe" "alice@example.org" "1 Main St"
           (Some (num 20998)) pending None "2026-03-01 10:00:00".

(** A host whose locale writes an integer as its decimal digits, without
    grouping. *)
Definition plain_digits (x : number) : string := string_of_Z (Math_floor_Z x).

Definition no_mail : Env := mkEnv None None (fun _ => Ok tt) plain_digits.
Definition nothing : IO := mkIO [] [].

(** A cart whose two quantities are the JSON numbers [1e400] and [-1e400],
    which parse to [Infinity] and [-Infinity]: its total is NaN. *)
Definition nan_cart : list Item.t :=
  [ Item.mk (Some (num 1)) (S754_infinity false);
    Item.mk (Some (num 1)) (S754_infinity true) ].

Definition shop7 : State := mkState [order7] [] nothing.

Definition meanwhile : list Event :=
  [ PostOrders [item 3 1] alice 0 "2026-03-01 10:00:01";
    GetAdminOrders ].

Definition pay_once : list Event :=
  [ PostOrders [item 1 2] alice 0 "2026-03-01 10:00:00";
    PostVerifyPayment "EK-0" "202600000001";
    TimerFires no_mail ].

Definition pay_again : list Event :=
  [ PostVerifyPayment "EK-0" "202600000002";
    TimerFires no_mail ].

Definition two_orders : list Event :=
  [ PostOrders [item 1 2] alice 0 "2026-03-01 10:00:00";
    PostOrders [item 3 1] alice 1 "2026-03-01 10:00:05" ].

(** ** Vocabulary of the further properties *)

(** The columns of a row that no statement of the server ever rewrites. *)
Definition same_data (o o' : Order.t) : Prop :=
  Order.id o' = Order.id o /\
  Order.customer_name o' = Order.customer_name o /\
  Order.email o' = Order.email o /\
  Order.address o' = Order.address o /\
  Order.total o' = Order.total o /\
  Order.created_at o' = Order.created_at o.

(** The row that a successful POST /api/orders inserts. *)
Definition new_order_row (items : list Item.t) (customer : Customer.t)
    (seed : Z) (now : string) : Order.t :=
  Order.mk (orderId_of seed)
    (Customer.firstName customer ++ " " ++ Customer.lastName customer)
    (Customer.email customer) (Customer.address customer)
    (sql_number (calculatedTotal items)) pending None now.

Definition basket : list Item.t := [item 1 2; item 77 5; item 9 3].

Definition order8 : Order.t :=
  Order.mk "EK-8" "Bob Poe" "bob@example.org" "2 Side St" (Some (num 6499))
           paid (Some "202611112222") "2026-03-01 09:00:00".

(** A creation that was answered 200. *)
Definition is_created (r : option Response) : bool :=
  match r with
  | Some (mkResponse c (JsonCreated _ _)) => c =? 200
  | _ => false
  end.

Definition created_count (rs : list (option Response)) : nat :=
  List.length (filter is_created rs).

(** A delivered mail that belongs to a stored order: addressed to the
    order's email, with the subject of a failure notice for that order, or
    the subject of a confirmation while the order is stored as paid. *)
Definition mail_matches (db : Table) (m : Mail.t) : Prop :=
  exists o, In o db /\ Mail.to m = Order.email o /\
    ((Mail.subject m = "Order Confirmed - " ++ Order.id o /\
      Order.status o = paid) \/
     Mail.subject m = "Order Payment Failed - " ++ Order.id o).

(** The two answers that follow a call of [sendOrderEmail]. *)
Definition after_notice (r : option Response) : bool :=
  match r with
  | Some (mkResponse _ JsonSuccess) => true
  | Some (mkResponse _ (JsonError e)) =>
      String.eqb e
        "Transaction ID verification failed. For demo purposes, use an ID starting with '2026'."
  | _ => false
  end.

Definition mailing : Env :=
  mkEnv (Some "shop@example.org") (Some "app-password") (fun _ => Ok tt)
        plain_digits.


(** A cart is submitted with total NaN, then verified. *)
Definition null_total_paid : list Event :=
  [ PostOrders nan_cart alice 0 "2026-03-01 10:00:00";
    PostVerifyPayment "EK-0" "202600000001" ].

Definition null_total_refused : list Event :=
  [ PostOrders nan_cart alice 0 "2026-03-01 10:00:00";
    PostVerifyPayment "EK-0" "123456789012" ].


(** * Properties *)

(** ** Pricing *)

Lemma existsb_find {A} (f : A -> bool) (l : list A) :
  existsb f l = match find f l with Some _ => true | None => false end.
Proof.
  induction l as [|x l IH]; simpl; [reflexivity|].
  destruct (f x); simpl; auto.
Qed.

Lemma in_catalog_find (pid : option number) :
  in_catalog pid = match find_product pid with Some _ => true | None => false end.
Proof.
  destruct pid as [x|]; [|reflexivity].
  unfold in_catalog, find_product. apply existsb_find.
Qed.

Lemma add_item_spec (acc : number) (item : Item.t) :
  add_item acc item =
  if in_catalog (Item.id item)
  then js_add acc (js_mul (unitPrice (Item.id item)) (Item.quantity item))
  else acc.
Proof.
  unfold add_item, unitPrice. rewrite in_catalog_find.
  destruct (find_product (Item.id item)); reflexivity.
Qed.

Lemma fold_add_item (items : list Item.t) :
  forall acc,
    fold_left add_item items acc =
    fold_left js_add
      (map (fun it => js_mul (unitPrice (Item.id it)) (Item.quantity it))
           (filter (fun it => in_catalog (Item.id it)) items)) acc.
Proof.
  induction items as [|it items IH]; intros acc; simpl; [reflexivity|].
  rewrite IH, add_item_spec.
  destruct (in_catalog (Item.id it)); reflexivity.
Qed.

Lemma calculatedTotal_spec (items : list Item.t) :
  calculatedTotal items = spec_total items.
Proof. unfold calculatedTotal, spec_total, js_sum. apply fold_add_item. Qed.

Lemma unknown_item_adds_nothing (it : Item.t) (before after : list Item.t) :
  in_catalog (Item.id it) = false ->
  calculatedTotal (before ++ it :: after)%list = calculatedTotal (before ++ after)%list.
Proof.
  intros Hno. rewrite !calculatedTotal_spec. unfold spec_total.
  rewrite !filter_app. simpl. rewrite Hno. reflexivity.
Qed.

(** ** The table *)

Lemma has_id_true (oid : string) (o : Order.t) :
  has_id oid o = true <-> Order.id o = oid.
Proof. unfold has_id. apply String.eqb_eq. Qed.

Lemma select_by_id_Some (db : Table) (oid : string) (o : Order.t) :
  select_by_id db oid = Some o -> In o db /\ Order.id o = oid.
Proof.
  intros H. apply find_some in H. rewrite has_id_true in H. exact H.
Qed.

Lemma select_by_id_None (db : Table) (oid : string) :
  select_by_id db oid = None <-> ~ In oid (map Order.id db).
Proof.
  unfold select_by_id. split.
  - intros H Hin. apply in_map_iff in Hin as (o & Hid & Ho).
    apply (find_none _ _ H) in Ho. apply has_id_true in Hid. congruence.
  - intros H. destruct (find (has_id oid) db) as [o|] eqn:E; [|reflexivity].
    apply find_some in E as [Ho Hid]. apply has_id_true in Hid.
    exfalso. apply H. apply in_map_iff. eauto.
Qed.

Lemma select_by_id_app (db1 db2 : Table) (oid : string) :
  select_by_id (db1 ++ db2)%list oid =
  match select_by_id db1 oid with
  | Some o => Some o
  | None => select_by_id db2 oid
  end.
Proof.
  unfold select_by_id. induction db1 as [|x db1 IH]; simpl; [reflexivity|].
  destruct (has_id oid x); auto.
Qed.

Lemma insert_order_fresh (db : Table) oid cname mail addr tot st now :
  select_by_id db oid = None ->
  insert_order db oid cname mail addr tot st now =
  Ok (db ++ [Order.mk oid cname mail addr (sql_number tot) st None now])%list.
Proof.
  intros H. unfold insert_order. rewrite existsb_find.
  unfold select_by_id in H. rewrite H. reflexivity.
Qed.

Lemma insert_order_taken (db : Table) oid cname mail addr tot st now :
  select_by_id db oid <> None ->
  insert_order db oid cname mail addr tot st now =
  Throw "UNIQUE constraint failed: orders.id".
Proof.
  intros H. unfold insert_order. rewrite existsb_find.
  unfold select_by_id in H. destruct (find (has_id oid) db); congruence.
Qed.

(** C1, as the code has it. Order creation with a fresh generated id
    answers [{orderId, total}] where [total] is the sum, over the items whose
    product id is in the catalog, of unit price times quantity (JS number
    arithmetic, the terms added to 0 in item order; items with other ids add
    nothing); the row it persists under that id carries that number as
    SQLite keeps it ([sql_number]): NULL when the sum is NaN, 0 when it is
    -0, and the sum itself otherwise. *)
Theorem post_orders_total (db : Table) (items : list Item.t)
    (customer : Customer.t) (seed : Z) (now : string) :
  select_by_id db (orderId_of seed) = None ->
  let r := post_orders db items customer seed now in
  fst r = res_json (JsonCreated (orderId_of seed) (spec_total items)) /\
  exists o, select_by_id (snd r) (orderId_of seed) = Some o /\
            Order.total o = sql_number (spec_total items).
Proof.
  intros Hfresh r. subst r. unfold post_orders.
  rewrite insert_order_fresh by exact Hfresh. simpl.
  rewrite calculatedTotal_spec. split; [reflexivity|].
  eexists. rewrite select_by_id_app, Hfresh. simpl.
  unfold has_id; simpl. rewrite String.eqb_refl. split; reflexivity.
Qed.

Lemma post_orders_total_witness :
  fst (post_orders [] [item 1 2; item 77 5; item 9 3] alice 0
         "2026-03-01 10:00:00")
  = res_json (JsonCreated "EK-0" (num 21001)) /\
  exists o, select_by_id
              (snd (post_orders [] [item 1 2; item 77 5; item 9 3]
                      alice 0 "2026-03-01 10:00:00")) "EK-0" = Some o /\
            Order.total o = Some (num 21001).
Proof.
  exact (post_orders_total [] [item 1 2; item 77 5; item 9 3] alice 0
           "2026-03-01 10:00:00" eq_refl).
Defined.

(** The total is not the exact sum: for [{id: 9, quantity: 2^53 - 1}] and
    [{id: 9, quantity: 2}] at unit price 1 the sum is 2^53 + 1 and the total
    answered is 2^53. And the persisted total is not always the one answered:
    a cart whose sum is NaN is persisted with a NULL total. *)
Lemma total_is_rounded_and_nan_is_null :
  ~ total_is_the_exact_sum /\ ~ persisted_total_is_the_sum.
Proof.
  split.
  - intros H.
    destruct (H [(9, 9007199254740991); (9, 2)] [] alice 0
                "2026-03-01 10:00:00" eq_refl) as (total & Hr & Hsum).
    vm_compute in Hr. injection Hr as <-.
    vm_compute in Hsum. discriminate Hsum.
  - intros H.
    destruct (H [] nan_cart alice 0 "2026-03-01 10:00:00" eq_refl)
      as (o & Ho & Htotal).
    vm_compute in Ho. injection Ho as <-. discriminate Htotal.
Qed.

(** ** Listing *)

Lemma string_leb_trans (s1 s2 s3 : string) :
  String.leb s1 s2 = true -> String.leb s2 s3 = true -> String.leb s1 s3 = true.
Proof.
  unfold String.leb. intros H12 H23.
  destruct (String.compare s1 s2) eqn:E12; try discriminate;
  destruct (String.compare s2 s3) eqn:E23; try discriminate.
  - apply String.compare_eq_iff in E12. subst. rewrite E23. reflexivity.
  - apply String.compare_eq_iff in E12. subst. rewrite E23. reflexivity.
  - apply String.compare_eq_iff in E23. subst. rewrite E12. reflexivity.
  - apply OrderedTypeEx.String_as_OT.cmp_lt in E12, E23.
    pose proof (OrderedTypeEx.String_as_OT.lt_trans _ _ _ E12 E23) as H13.
    apply OrderedTypeEx.String_as_OT.cmp_lt in H13.
    unfold OrderedTypeEx.String_as_OT.cmp in H13. rewrite H13. reflexivity.
Qed.

Lemma newer_or_same_trans (a b c : Order.t) :
  newer_or_same a b -> newer_or_same b c -> newer_or_same a c.
Proof.
  unfold newer_or_same, created_geb. intros Hab Hbc.
  exact (string_leb_trans _ _ _ Hbc Hab).
Qed.

Lemma newer_or_same_total (a b : Order.t) :
  created_geb a b = false -> newer_or_same b a.
Proof.
  unfold newer_or_same, created_geb. intros H.
  destruct (String.leb_total (Order.created_at a) (Order.created_at b)); congruence.
Qed.

Lemma insert_desc_perm (o : Order.t) (l : list Order.t) :
  Permutation (o :: l) (insert_desc o l).
Proof.
  induction l as [|x l IH]; simpl; [apply Permutation_refl|].
  destruct (created_geb o x); [apply Permutation_refl|].
  eapply perm_trans; [apply perm_swap|]. apply perm_skip, IH.
Qed.

Lemma insert_desc_sorted (o : Order.t) (l : list Order.t) :
  StronglySorted newer_or_same l -> StronglySorted newer_or_same (insert_desc o l).
Proof.
  induction l as [|x l IH]; intros Hs; simpl.
  - constructor; constructor.
  - inversion Hs as [|x' l' Hl Hx]; subst.
    destruct (created_geb o x) eqn:E.
    + constructor; [exact Hs|]. constructor; [exact E|].
      eapply Forall_impl; [|exact Hx]. intros y Hy.
      eapply newer_or_same_trans; [exact E|exact Hy].
    + constructor; [apply IH, Hl|].
      eapply Permutation_Forall; [apply insert_desc_perm|].
      constructor; [apply newer_or_same_total, E|exact Hx].
Qed.

Lemma select_all_desc_perm (db : Table) : Permutation db (select_all_desc db).
Proof.
  induction db as [|o db IH]; simpl; [constructor|].
  eapply perm_trans; [apply perm_skip, IH|apply insert_desc_perm].
Qed.

Lemma select_all_desc_sorted (db : Table) :
  StronglySorted newer_or_same (select_all_desc db).
Proof.
  induction db as [|o db IH]; simpl; [constructor|].
  apply insert_desc_sorted, IH.
Qed.

(** C7. GET /api/admin/orders answers 200 with a list that holds exactly the
    rows of the table (a permutation of them), in which every row's
    [created_at] is greater than or equal to that of every row after it, and
    it leaves the table as it was. *)
Theorem get_admin_orders_newest_first (db : Table) :
  exists rows,
    fst (get_admin_orders db) = mkResponse 200 (JsonOrders rows) /\
    Permutation db rows /\
    StronglySorted
      (fun a b => String.leb (Order.created_at b) (Order.created_at a) = true)
      rows /\
    snd (get_admin_orders db) = db.
Proof.
  exists (select_all_desc db). repeat split.
  - apply select_all_desc_perm.
  - exact (select_all_desc_sorted db).
Qed.

(** ** Notifier *)

Lemma notice_throws_paid (env : Env) (o : Order.t) :
  notice_throws env (Order.with_status o paid) = notice_throws env o.
Proof. reflexivity. Qed.

Lemma sendOrderEmail_result (env : Env) (order : Order.t) (status : MailStatus)
    (io : IO) :
  fst (sendOrderEmail env order status io)
  = if notice_throws env order then Throw type_error else Ok tt.
Proof.
  unfold sendOrderEmail, notice_throws, has_total, order_email_html.
  destruct (falsy (GMAIL_USER env) || falsy (GMAIL_APP_PASSWORD env)); simpl;
    [reflexivity|].
  destruct (Order.total order) as [total|]; simpl; [|reflexivity].
  match goal with |- context [sendMail env ?m] => destruct (sendMail env m) end;
    reflexivity.
Qed.

Lemma sendOrderEmail_throws_quietly (env : Env) (order : Order.t)
    (status : MailStatus) (io : IO) :
  notice_throws env order = true ->
  sendOrderEmail env order status io = (Throw type_error, io).
Proof.
  unfold sendOrderEmail, notice_throws, has_total, order_email_html.
  destruct (falsy (GMAIL_USER env) || falsy (GMAIL_APP_PASSWORD env)); simpl;
    [discriminate|].
  destruct (Order.total order); [discriminate|reflexivity].
Qed.

Lemma sendOrderEmail_skips (env : Env) (order : Order.t) (status : MailStatus)
    (io : IO) :
  falsy (GMAIL_USER env) || falsy (GMAIL_APP_PASSWORD env) = true ->
  sendOrderEmail env order status io =
  (Ok tt, console_log io "Gmail credentials not configured. Skipping email.").
Proof. intros H. unfold sendOrderEmail. rewrite H. reflexivity. Qed.

(** ** Order ids *)

Lemma digits2_bounds (p : positive) :
  2 ^ (Zpos (digits2_pos p) - 1) <= Zpos p < 2 ^ Zpos (digits2_pos p).
Proof.
  induction p as [p IH|p IH|]; cbn [digits2_pos].
  - rewrite Pos2Z.inj_succ.
    replace (Z.succ (Zpos (digits2_pos p)) - 1) with (Z.succ (Zpos (digits2_pos p) - 1)) by lia.
    rewrite !Z.pow_succ_r by lia. lia.
  - rewrite Pos2Z.inj_succ.
    replace (Z.succ (Zpos (digits2_pos p)) - 1) with (Z.succ (Zpos (digits2_pos p) - 1)) by lia.
    rewrite !Z.pow_succ_r by lia. lia.
  - simpl. lia.
Qed.

Lemma digits2_le (p : positive) (d : Z) :
  0 <= d -> Zpos p < 2 ^ d -> Zpos (digits2_pos p) <= d.
Proof.
  intros Hd Hp. pose proof (digits2_bounds p) as [Hlo _].
  destruct (Z_le_gt_dec (Zpos (digits2_pos p)) d) as [H|H]; [exact H|exfalso].
  assert (2 ^ d <= 2 ^ (Zpos (digits2_pos p) - 1)) by (apply Z.pow_le_mono_r; lia).
  lia.
Qed.

Lemma iter_pos_nat {A} (f : A -> A) (p : positive) (x : A) :
  iter_pos f p x = Nat.iter (Pos.to_nat p) f x.
Proof.
  revert x. induction p as [p IH|p IH|]; intros x; cbn [iter_pos].
  - rewrite !IH, Pos2Nat.inj_xI.
    replace (S (2 * Pos.to_nat p))%nat with (Pos.to_nat p + (Pos.to_nat p + 1))%nat by lia.
    rewrite !Nat.iter_add. reflexivity.
  - rewrite !IH, Pos2Nat.inj_xO.
    replace (2 * Pos.to_nat p)%nat with (Pos.to_nat p + Pos.to_nat p)%nat by lia.
    rewrite Nat.iter_add. reflexivity.
  - reflexivity.
Qed.

Lemma shr_1_m (mrs : shr_record) :
  0 <= shr_m mrs ->
  shr_m (shr_1 mrs) = shr_m mrs / 2 /\
  (shr_r (shr_1 mrs) = true -> shr_m mrs mod 2 = 1).
Proof.
  destruct mrs as [m r s]. cbn [shr_m]. intros Hm.
  destruct m as [|[p|p|]|p]; cbn [shr_1 shr_m shr_r]; try lia.
  - split; [reflexivity|discriminate].
  - split; [rewrite Pos2Z.inj_xI|intros _; rewrite Pos2Z.inj_xI].
    + apply Z.div_unique with (r := 1); lia.
    + symmetry. apply Z.mod_unique with (q := Zpos p); lia.
  - split; [|discriminate]. rewrite Pos2Z.inj_xO.
    apply Z.div_unique with (r := 0); lia.
  - split; reflexivity.
Qed.

Lemma shr_iter (m : Z) (r s : bool) (k : nat) :
  0 <= m ->
  shr_m (Nat.iter k shr_1 (Build_shr_record m r s)) = m / 2 ^ Z.of_nat k /\
  ((0 < k)%nat -> shr_r (Nat.iter k shr_1 (Build_shr_record m r s)) = true ->
   2 ^ (Z.of_nat k - 1) <= m mod 2 ^ Z.of_nat k).
Proof.
  intros Hm. induction k as [|k IH].
  - simpl. rewrite Z.div_1_r. split; [reflexivity|lia].
  - rewrite Nat.iter_succ. destruct IH as [IHm _].
    set (prev := Nat.iter k shr_1 (Build_shr_record m r s)) in *.
    assert (Hprev : 0 <= shr_m prev) by (rewrite IHm; apply Z.div_pos; lia).
    destruct (shr_1_m prev Hprev) as [Hm1 Hr1].
    rewrite Nat2Z.inj_succ, Z.pow_succ_r by lia.
    split.
    + rewrite Hm1, IHm, Z.div_div by lia. f_equal. lia.
    + intros _ Hr. specialize (Hr1 Hr). rewrite IHm in Hr1.
      replace (Z.succ (Z.of_nat k) - 1) with (Z.of_nat k) by lia.
      set (P := 2 ^ Z.of_nat k) in *.
      assert (HP : 0 < P) by (apply Z.pow_pos_nonneg; lia).
      pose proof (Z.div_mod m P ltac:(lia)) as Hdm.
      pose proof (Z.mod_pos_bound m P HP) as Hb.
      pose proof (Z.div_mod (m / P) 2 ltac:(lia)) as Hdm2.
      rewrite Hr1 in Hdm2.
      assert (Heq : m = (2 * P) * ((m / P) / 2) + (P + m mod P)) by nia.
      rewrite <- (Z.mod_unique m (2 * P) ((m / P) / 2) (P + m mod P)); [lia|lia|exact Heq].
Qed.

Lemma shr_exact_bound (m e n : Z) :
  0 <= m ->
  let res := shr (Build_shr_record m false false) e n in
  let np := Z.max 0 n in
  let R := round_nearest_even (shr_m (fst res)) (loc_of_shr_record (fst res)) in
  snd res = e + np /\
  shr_m (fst res) = m / 2 ^ np /\
  shr_m (fst res) <= R /\
  R * 2 ^ np <= m + half_ulp np.
Proof.
  intros Hm. destruct n as [|p|p]; cbn [shr fst snd Z.max Z.compare].
  - cbn. rewrite Z.div_1_r. unfold half_ulp. simpl. lia.
  - rewrite iter_pos_nat.
    destruct (shr_iter m false false (Pos.to_nat p) Hm) as [Hm1 Hr1].
    rewrite positive_nat_Z in Hm1, Hr1.
    specialize (Hr1 (Pos2Nat.is_pos p)).
    replace (Z.max 0 (Zpos p)) with (Zpos p) by lia.
    set (mrs := Nat.iter (Pos.to_nat p) shr_1 (Build_shr_record m false false)) in *.
    split; [lia|]. split; [exact Hm1|].
    assert (HP : 0 < 2 ^ (Zpos p - 1)) by (apply Z.pow_pos_nonneg; lia).
    assert (H2 : 2 ^ Zpos p = 2 * 2 ^ (Zpos p - 1)).
    { rewrite <- Z.pow_succ_r by lia. f_equal. lia. }
    pose proof (Z.div_mod m (2 ^ Zpos p) ltac:(lia)) as Hdm.
    pose proof (Z.mod_pos_bound m (2 ^ Zpos p) ltac:(lia)) as Hb.
    unfold half_ulp. replace (Zpos p =? 0) with false by reflexivity.
    destruct mrs as [m1 r1 s1]. cbn [shr_m shr_r] in *. subst m1.
    destruct r1, s1; cbn [loc_of_shr_record round_nearest_even].
    + specialize (Hr1 eq_refl). nia.
    + specialize (Hr1 eq_refl). destruct (Z.even (m / 2 ^ Zpos p)); nia.
    + nia.
    + nia.
  - cbn. rewrite Z.div_1_r. unfold half_ulp. simpl. lia.
Qed.

Lemma round_at_most_one_up (mrs : shr_record) :
  round_nearest_even (shr_m mrs) (loc_of_shr_record mrs) <= shr_m mrs + 1.
Proof.
  destruct mrs as [m [|] [|]]; cbn [shr_m loc_of_shr_record round_nearest_even];
    try lia. destruct (Z.even m); lia.
Qed.

(** What [binary_round_aux] returns for a positive mantissa [M] at exponent
    [E] and an exact location: a mantissa and an exponent whose value lies
    within half a unit in the last place above, and two units below, the
    exact value [M * 2^E] (values are compared at the scale [2^E]). *)
Lemma binary_round_aux_bounds (M : positive) (E : Z) :
  let n := Z.max 0 (fexp 53 1024 (Zpos (digits2_pos M) + E) - E) in
  exists m'' e'',
    0 <= m'' /\ E + n <= e'' /\
    Zpos M - 2 ^ (n + 1) < m'' * 2 ^ (e'' - E) /\
    m'' * 2 ^ (e'' - E) <= Zpos M + half_ulp n /\
    binary_round_aux 53 1024 false (Zpos M) E loc_Exact =
    match m'' with
    | Z0 => S754_zero false
    | Zpos m => if e'' <=? 1024 - 53 then S754_finite false m e''
                else S754_infinity false
    | Zneg _ => S754_nan
    end.
Proof.
  intros n. unfold binary_round_aux, shr_fexp.
  cbn [shr_record_of_loc Zdigits2].
  pose proof (shr_exact_bound (Zpos M) E (fexp 53 1024 (Zpos (digits2_pos M) + E) - E)
                ltac:(lia)) as H1.
  cbv zeta in H1. fold n in H1.
  pose proof (round_at_most_one_up
    (fst (shr (Build_shr_record (Zpos M) false false) E
            (fexp 53 1024 (Zpos (digits2_pos M) + E) - E)))) as Hup.
  destruct (shr (Build_shr_record (Zpos M) false false) E
              (fexp 53 1024 (Zpos (digits2_pos M) + E) - E)) as [mrs' e'].
  cbn [fst snd] in H1, Hup. destruct H1 as (He' & Hm' & HR0 & HRup).
  set (R := round_nearest_even (shr_m mrs') (loc_of_shr_record mrs')) in *.
  pose proof (digits2_bounds M) as [_ HdM].
  set (dM := Zpos (digits2_pos M)) in *.
  assert (Hn0 : 0 <= n) by lia.
  assert (HnM : dM - 53 <= n) by (subst n; unfold fexp; lia).
  assert (H2n : 0 < 2 ^ n) by (apply Z.pow_pos_nonneg; lia).
  assert (Hm1 : 0 <= shr_m mrs' < 2 ^ 53).
  { rewrite Hm'. split; [apply Z.div_pos; lia|].
    apply Z.div_lt_upper_bound; [lia|].
    apply Z.lt_le_trans with (2 ^ dM); [exact HdM|].
    rewrite <- Z.pow_add_r by lia. apply Z.pow_le_mono_r; lia. }
  assert (HR : 0 <= R <= 2 ^ 53) by lia.
  assert (HdR : Zdigits2 R <= 54).
  { destruct R as [|r|r]; cbn [Zdigits2]; [lia| |lia].
    apply digits2_le; [lia|]. change (2 ^ 54) with (2 * 2 ^ 53). lia. }
  assert (He'min : -1074 <= e') by (rewrite He'; subst n; unfold fexp, emin; lia).
  pose proof (shr_exact_bound R e' (fexp 53 1024 (Zdigits2 R + e') - e')
                ltac:(lia)) as H2.
  cbv zeta in H2.
  destruct (shr (Build_shr_record R false false) e'
              (fexp 53 1024 (Zdigits2 R + e') - e')) as [mrs'' e''].
  cbn [fst snd] in H2. destruct H2 as (He'' & Hm'' & _ & _).
  set (n2 := Z.max 0 (fexp 53 1024 (Zdigits2 R + e') - e')) in *.
  assert (Hn2 : 0 <= n2 <= 1) by (subst n2; unfold fexp, emin; lia).
  exists (shr_m mrs''), e''.
  assert (H2n2 : 0 < 2 ^ n2) by (apply Z.pow_pos_nonneg; lia).
  assert (H2n2' : 2 ^ n2 <= 2).
  { change 2 with (2 ^ 1) at 2. apply Z.pow_le_mono_r; lia. }
  pose proof (Z.div_mod R (2 ^ n2) ltac:(lia)) as Hdm2.
  pose proof (Z.mod_pos_bound R (2 ^ n2) H2n2) as Hb2.
  pose proof (Z.div_mod (Zpos M) (2 ^ n) ltac:(lia)) as Hdm1.
  pose proof (Z.mod_pos_bound (Zpos M) (2 ^ n) H2n) as Hb1.
  split; [rewrite Hm''; apply Z.div_pos; lia|]. split; [lia|].
  replace (e'' - E) with (n2 + n) by lia.
  rewrite !Z.pow_add_r by lia. change (2 ^ 1) with 2.
  rewrite Hm''. rewrite Hm' in HR0.
  split; [nia|]. split; [nia|reflexivity].
Qed.

Lemma num_million : num 1000000 = S754_finite false 8589934592000000 (-33).
Proof. reflexivity. Qed.

Lemma random_parts (seed : Z) :
  0 <= seed mod 2 ^ 53 < 2 ^ 53 /\
  -1074 <= - 53 - (seed / 2 ^ 53) mod 1022 <= -53.
Proof.
  pose proof (Z.mod_pos_bound seed (2 ^ 53) ltac:(reflexivity)).
  pose proof (Z.mod_pos_bound (seed / 2 ^ 53) 1022 ltac:(lia)). lia.
Qed.

(** The product of a positive draw [p * 2^e] by 1000000, as [SFmul] rounds
    it: within [2^19] above and [2^21] below [p * 1000000], at the scale
    [2^e]. ([j] is the shift that makes the draw's mantissa canonical.) *)
Lemma draw_product (p : positive) (e : Z) :
  Zpos p < 2 ^ 53 -> -1074 <= e <= -53 ->
  let j := Z.min (53 - Zpos (digits2_pos p)) (e + 1074) in
  let E := e - j - 33 in
  exists m2 e2,
    0 <= m2 /\ E <= e2 /\ 0 <= j /\
    (Zpos p * 1000000 - 2097152) * 2 ^ (j + 33) < m2 * 2 ^ (e2 - E) /\
    m2 * 2 ^ (e2 - E) <= (Zpos p * 1000000 + 524288) * 2 ^ (j + 33) /\
    js_mul (double_of (Zpos p) e) (num 1000000) =
    match m2 with
    | Z0 => S754_zero false
    | Zpos m => if e2 <=? 1024 - 53 then S754_finite false m e2
                else S754_infinity false
    | Zneg _ => S754_nan
    end.
Proof.
  intros Hk He j E. rewrite num_million. cbn [double_of]. fold j.
  pose proof (digits2_le p 53 ltac:(lia) ltac:(lia)) as Hd.
  pose proof (digits2_bounds p) as [_ Hdhi].
  set (d := Zpos (digits2_pos p)) in *.
  assert (Hj : 0 <= j) by lia.
  assert (Hjd : j + d <= 53) by lia.
  assert (H2j : 0 < 2 ^ j) by (apply Z.pow_pos_nonneg; lia).
  assert (Hmx : Zpos (Z.to_pos (Zpos p * 2 ^ j)) = Zpos p * 2 ^ j)
    by (apply Z2Pos.id; nia).
  assert (Hmxlt : Zpos p * 2 ^ j < 2 ^ 53).
  { apply Z.lt_le_trans with (2 ^ d * 2 ^ j); [nia|].
    rewrite <- Z.pow_add_r by lia. apply Z.pow_le_mono_r; lia. }
  unfold js_mul. cbn [SFmul xorb].
  set (mx := Z.to_pos (Zpos p * 2 ^ j)) in *.
  replace (e - j + -33) with E by (unfold E; lia).
  destruct (binary_round_aux_bounds (mx * 8589934592000000) E)
    as (m2 & e2 & Hm2 & He2 & Hlow & Hupp & ->).
  set (n := Z.max 0 (fexp 53 1024 (Zpos (digits2_pos (mx * 8589934592000000)) + E) - E)) in *.
  assert (HM : Zpos (mx * 8589934592000000) = Zpos p * 1000000 * 2 ^ (j + 33)).
  { rewrite Pos2Z.inj_mul, Hmx, Z.pow_add_r by lia.
    change (2 ^ 33) with 8589934592. lia. }
  assert (Hdig : Zpos (digits2_pos (mx * 8589934592000000)) <= 106).
  { apply digits2_le; [lia|]. rewrite Pos2Z.inj_mul, Hmx.
    change (2 ^ 106) with (2 ^ 53 * 2 ^ 53).
    assert (8589934592000000 < 2 ^ 53) by reflexivity. nia. }
  assert (Hn0 : 0 <= n) by lia.
  assert (Hn : n <= j + 53) by (subst n; unfold fexp, emin, E; lia).
  assert (HB : 0 < 2 ^ (j + 33)) by (apply Z.pow_pos_nonneg; lia).
  assert (Hhalf : half_ulp n <= 524288 * 2 ^ (j + 33)).
  { replace (524288 * 2 ^ (j + 33)) with (2 ^ (j + 52)).
    - unfold half_ulp. destruct (n =? 0) eqn:En.
      + apply Z.lt_le_incl, Z.pow_pos_nonneg; lia.
      + apply Z.eqb_neq in En. apply Z.pow_le_mono_r; lia.
    - replace (j + 52) with (19 + (j + 33)) by lia.
      rewrite Z.pow_add_r by lia. reflexivity. }
  assert (Htwo : 2 ^ (n + 1) <= 2097152 * 2 ^ (j + 33)).
  { replace (2097152 * 2 ^ (j + 33)) with (2 ^ (j + 54)).
    - apply Z.pow_le_mono_r; lia.
    - replace (j + 54) with (21 + (j + 33)) by lia.
      rewrite Z.pow_add_r by lia. reflexivity. }
  exists m2, e2. rewrite HM in Hlow, Hupp.
  repeat split; try lia; nia.
Qed.

(** The product [Math.random() * 1000000] is zero or a finite positive double
    below 1000000. *)
Lemma random_product (seed : Z) :
  js_mul (Math_random seed) (num 1000000) = S754_zero false \/
  exists m e, js_mul (Math_random seed) (num 1000000) = S754_finite false m e /\
              (0 <= e -> Zpos m * 2 ^ e < 1000000) /\
              (e < 0 -> Zpos m < 1000000 * 2 ^ (- e)).
Proof.
  unfold Math_random, random_den. destruct (random_parts seed) as [Hk He].
  set (k := seed mod 2 ^ 53) in *. set (e := - 53 - (seed / 2 ^ 53) mod 1022) in *.
  destruct k as [|p|p] eqn:Ek; [left; reflexivity| |lia].
  destruct (draw_product p e ltac:(lia) He)
    as (m2 & e2 & Hm2 & He2 & Hj & _ & Hupp & ->).
  set (j := Z.min (53 - Zpos (digits2_pos p)) (e + 1074)) in *.
  set (E := e - j - 33) in *.
  assert (HB : 0 < 2 ^ (j + 33)) by (apply Z.pow_pos_nonneg; lia).
  assert (HW : Zpos p + 1 <= 2 ^ (- e)).
  { assert (2 ^ 53 <= 2 ^ (- e)) by (apply Z.pow_le_mono_r; lia). lia. }
  assert (HL : 2 ^ (- E) = 2 ^ (j + 33) * 2 ^ (- e)).
  { unfold E. rewrite <- Z.pow_add_r by lia. f_equal. lia. }
  assert (Hlt : m2 * 2 ^ (e2 - E) < 1000000 * 2 ^ (- E)).
  { rewrite HL. nia. }
  assert (HEneg : E < 0) by (unfold E; lia).
  assert (Hscale : 0 < 2 ^ (- E)) by (apply Z.pow_pos_nonneg; lia).
  destruct m2 as [|m|m]; [left; reflexivity|right|lia].
  assert (Hsplit : (0 <= e2 -> Zpos m * 2 ^ e2 < 1000000) /\
                   (e2 < 0 -> Zpos m < 1000000 * 2 ^ (- e2))).
  { split; intros Hs.
    - replace (e2 - E) with (e2 + - E) in Hlt by lia.
      rewrite Z.pow_add_r in Hlt by lia. nia.
    - replace (- E) with ((e2 - E) + - e2) in Hlt by lia.
      rewrite Z.pow_add_r in Hlt by lia.
      assert (0 < 2 ^ (e2 - E)) by (apply Z.pow_pos_nonneg; lia). nia. }
  assert (Hsmall : e2 <= 1024 - 53).
  { destruct (Z_le_gt_dec e2 971) as [H|H]; [lia|exfalso].
    destruct Hsplit as [Hpos _]. specialize (Hpos ltac:(lia)).
    assert (2 ^ 20 <= 2 ^ e2) by (apply Z.pow_le_mono_r; lia).
    change (2 ^ 20) with 1048576 in *. nia. }
  apply Z.leb_le in Hsmall. rewrite Hsmall.
  exists m, e2. split; [reflexivity|exact Hsplit].
Qed.

Lemma order_number_range (seed : Z) : 0 <= order_number seed <= 999999.
Proof.
  unfold order_number.
  destruct (random_product seed) as [->|(m & e & -> & Hpos & Hneg)];
    [simpl; lia|].
  cbn [Math_floor_Z cond_Zopp].
  destruct (0 <=? e) eqn:Ee.
  - apply Z.leb_le in Ee. specialize (Hpos Ee).
    assert (0 < 2 ^ e) by (apply Z.pow_pos_nonneg; lia). nia.
  - apply Z.leb_gt in Ee. specialize (Hneg Ee).
    assert (0 < 2 ^ (- e)) by (apply Z.pow_pos_nonneg; lia).
    split; [apply Z.div_pos; lia|].
    apply Z.lt_succ_r. apply Z.div_lt_upper_bound; lia.
Qed.


(** ** Payment verification *)

Lemma set_paid_id (txid oid : string) (o : Order.t) :
  Order.id (set_paid txid oid o) = Order.id o.
Proof. unfold set_paid. destruct (has_id oid o); reflexivity. Qed.

Lemma select_by_id_update (db : Table) (txid oid oid' : string) :
  select_by_id (fst (update_paid db txid oid)) oid' =
  option_map (set_paid txid oid) (select_by_id db oid').
Proof.
  unfold select_by_id, update_paid. simpl.
  induction db as [|x db IH]; simpl; [reflexivity|].
  unfold has_id at 1. rewrite set_paid_id. fold (has_id oid' x).
  destruct (has_id oid' x); simpl; auto.
Qed.

Lemma update_paid_changes (db : Table) (txid oid : string) (o : Order.t) :
  select_by_id db oid = Some o -> (0 <? snd (update_paid db txid oid)) = true.
Proof.
  unfold select_by_id, update_paid. simpl. intros H.
  apply find_some in H as [Hin Hid].
  assert (Hf : In o (filter (has_id oid) db)) by (apply filter_In; auto).
  destruct (filter (has_id oid) db); [contradiction|].
  apply Z.ltb_lt. simpl List.length. lia.
Qed.

Lemma update_paid_no_match (db : Table) (txid oid : string) :
  select_by_id db oid = None -> fst (update_paid db txid oid) = db.
Proof.
  unfold select_by_id, update_paid. simpl. intros H.
  rewrite <- (map_id db) at 2. apply map_ext_in. intros o Ho.
  unfold set_paid. rewrite (find_none _ _ H o Ho). reflexivity.
Qed.

Lemma callback_not_found env db io oid txid :
  select_by_id db oid = None ->
  verify_payment_callback env db io oid txid = mkHandled (Some order_not_found) db io.
Proof. intros H. unfold verify_payment_callback. rewrite H. reflexivity. Qed.

Lemma callback_rejects env db io oid txid o :
  select_by_id db oid = Some o ->
  startsWith txid "2026" = false ->
  verify_payment_callback env db io oid txid =
  mkHandled (if notice_throws env o then None else Some failed_demo_rule)
            db (snd (sendOrderEmail env o failed io)).
Proof.
  intros Ho Hp. unfold verify_payment_callback. rewrite Ho, Hp. simpl.
  pose proof (sendOrderEmail_result env o failed io) as Hr.
  destruct (sendOrderEmail env o failed io) as [[u|e] io']; simpl in *;
    destruct (notice_throws env o); try discriminate; reflexivity.
Qed.

Lemma callback_accepts env db io oid txid o :
  select_by_id db oid = Some o ->
  startsWith txid "2026" = true ->
  verify_payment_callback env db io oid txid =
  mkHandled
    (if notice_throws env o then Some verification_failed
     else Some (res_json JsonSuccess))
    (fst (update_paid db txid oid))
    (if notice_throws env o
     then console_log (snd (sendOrderEmail env (Order.with_status o paid) success io))
                      type_error
     else snd (sendOrderEmail env (Order.with_status o paid) success io)).
Proof.
  intros Ho Hp. unfold verify_payment_callback. rewrite Ho, Hp. cbn [negb].
  pose proof (update_paid_changes db txid oid o Ho) as Hc.
  unfold update_paid in *. cbn [fst snd] in *. rewrite Hc.
  pose proof (sendOrderEmail_result env (Order.with_status o paid) success io) as Hr.
  rewrite notice_throws_paid in Hr.
  destruct (sendOrderEmail env (Order.with_status o paid) success io)
    as [[u|e] io']; simpl in *;
    destruct (notice_throws env o); try discriminate; [reflexivity|].
  injection Hr as ->. reflexivity.
Qed.

Lemma request_passes oid txid :
  test_12_digits txid = true ->
  verify_payment_request oid txid = SetTimeout oid txid.
Proof. intros H. unfold verify_payment_request. rewrite H. reflexivity. Qed.

Lemma request_fails oid txid :
  test_12_digits txid = false ->
  verify_payment_request oid txid = Responded bad_format.
Proof. intros H. unfold verify_payment_request. rewrite H. reflexivity. Qed.

Lemma callback_paid_row env db io oid txid o :
  select_by_id db oid = Some o ->
  startsWith txid "2026" = true ->
  exists o', select_by_id (table (verify_payment_callback env db io oid txid)) oid
             = Some o' /\
             Order.status o' = paid /\
             Order.transaction_id o' = Some txid.
Proof.
  intros Ho Hpre. rewrite (callback_accepts _ _ _ _ _ _ Ho Hpre).
  cbn [table]. rewrite select_by_id_update, Ho. simpl.
  eexists. split; [reflexivity|].
  apply select_by_id_Some in Ho as [_ Hid]. apply has_id_true in Hid.
  unfold set_paid. rewrite Hid. split; reflexivity.
Qed.

Lemma callback_marks_paid env db io oid txid o :
  select_by_id db oid = Some o ->
  startsWith txid "2026" = true ->
  notice_throws env o = false ->
  response (verify_payment_callback env db io oid txid)
  = Some (mkResponse 200 JsonSuccess) /\
  exists o', select_by_id (table (verify_payment_callback env db io oid txid)) oid
             = Some o' /\
             Order.status o' = paid /\
             Order.transaction_id o' = Some txid.
Proof.
  intros Ho Hpre Hquiet. split; [|exact (callback_paid_row _ _ _ _ _ _ Ho Hpre)].
  rewrite (callback_accepts _ _ _ _ _ _ Ho Hpre), Hquiet. reflexivity.
Qed.

(** ** Invariants of the server *)

Lemma evolves_refl (o : Order.t) : evolves o o.
Proof. repeat split. auto. Qed.

Lemma table_evolves_refl (db : Table) : table_evolves db db.
Proof. intros o Ho. exists o. split; [exact Ho|apply evolves_refl]. Qed.

Lemma table_evolves_trans (db1 db2 db3 : Table) :
  table_evolves db1 db2 -> table_evolves db2 db3 -> table_evolves db1 db3.
Proof.
  intros H12 H23 o Ho.
  destruct (H12 o Ho) as (o2 & Ho2 & Hi2 & Ht2 & Hs2).
  destruct (H23 o2 Ho2) as (o3 & Ho3 & Hi3 & Ht3 & Hs3).
  exists o3. split; [exact Ho3|].
  repeat split; try congruence. auto.
Qed.

Lemma post_orders_cases (db : Table) items customer seed now :
  (select_by_id db (orderId_of seed) = None /\
   post_orders db items customer seed now =
   (res_json (JsonCreated (orderId_of seed) (calculatedTotal items)),
    (db ++ [Order.mk (orderId_of seed)
              (Customer.firstName customer ++ " " ++ Customer.lastName customer)
              (Customer.email customer) (Customer.address customer)
              (sql_number (calculatedTotal items)) pending None now])%list))
  \/
  (select_by_id db (orderId_of seed) <> None /\
   post_orders db items customer seed now =
   (res_status_json 500 (JsonError "Failed to create order"), db)).
Proof.
  unfold post_orders.
  destruct (select_by_id db (orderId_of seed)) as [o|] eqn:E.
  - right. split; [discriminate|].
    rewrite insert_order_taken by congruence. reflexivity.
  - left. split; [reflexivity|].
    rewrite insert_order_fresh by exact E. reflexivity.
Qed.

Lemma callback_table env db io oid txid :
  table (verify_payment_callback env db io oid txid) = db \/
  (startsWith txid "2026" = true /\
   table (verify_payment_callback env db io oid txid)
   = fst (update_paid db txid oid)).
Proof.
  destruct (select_by_id db oid) as [o|] eqn:Ho.
  - destruct (startsWith txid "2026") eqn:Hpre.
    + right. rewrite (callback_accepts _ _ _ _ _ _ Ho Hpre). split; reflexivity.
    + left. rewrite (callback_rejects _ _ _ _ _ _ Ho Hpre). reflexivity.
  - left. rewrite (callback_not_found _ _ _ _ _ Ho). reflexivity.
Qed.

Lemma update_paid_ids (db : Table) (txid oid : string) :
  map Order.id (fst (update_paid db txid oid)) = map Order.id db.
Proof.
  unfold update_paid. simpl. rewrite map_map.
  apply map_ext. intros o. apply set_paid_id.
Qed.

Lemma update_paid_rows_ok (db : Table) (txid oid : string) :
  accepted txid -> Forall row_ok db ->
  Forall row_ok (fst (update_paid db txid oid)).
Proof.
  intros Hacc Hdb. unfold update_paid. simpl.
  apply Forall_map. eapply Forall_impl; [|exact Hdb].
  intros o Ho. unfold set_paid. destruct (has_id oid o); [exact Hacc|exact Ho].
Qed.

Lemma update_paid_evolves (db : Table) (txid oid : string) :
  table_evolves db (fst (update_paid db txid oid)).
Proof.
  intros o Ho. exists (set_paid txid oid o). split.
  - unfold update_paid. simpl. apply in_map, Ho.
  - unfold set_paid. destruct (has_id oid o); repeat split; auto.
Qed.

Lemma step_ok (s : State) (e : Event) : state_ok s -> state_ok (fst (step s e)).
Proof.
  intros (Hrows & Htim & Hkey). unfold state_ok.
  destruct e as [|items customer seed now|oid txid|env]; simpl.
  - repeat split; assumption.
  - destruct (post_orders_cases (orders s) items customer seed now)
      as [[Hfresh ->]|[_ ->]]; simpl; [|repeat split; assumption].
    repeat split; [| assumption |].
    + apply Forall_app. split; [exact Hrows|]. constructor; [exact I|constructor].
    + rewrite map_app. simpl. apply NoDup_app.
      * exact Hkey.
      * constructor; [intros []|constructor].
      * intros x Hx [<-|[]]. apply select_by_id_None in Hfresh. contradiction.
  - unfold verify_payment_request.
    destruct (test_12_digits txid) eqn:Hfmt; simpl; [|repeat split; assumption].
    repeat split; try assumption.
    apply Forall_app. split; [exact Htim|]. constructor; [exact Hfmt|constructor].
  - destruct (timers s) as [|[oid txid] rest] eqn:Et; simpl.
    + rewrite Et. repeat split; assumption.
    + inversion Htim as [|t ts Hfmt Hrest]; subst. simpl in Hfmt.
      destruct (callback_table env (orders s) (world s) oid txid)
        as [->|[Hpre ->]].
      * repeat split; assumption.
      * repeat split; [| assumption |].
        -- apply update_paid_rows_ok; [split|]; assumption.
        -- rewrite update_paid_ids. exact Hkey.
Qed.

Lemma run_cons (s : State) (e : Event) (evs : list Event) :
  run s (e :: evs) = run (fst (step s e)) evs.
Proof. reflexivity. Qed.

Lemma run_app (s : State) (evs evs' : list Event) :
  run s (evs ++ evs')%list = run (run s evs) evs'.
Proof. unfold run. apply fold_left_app. Qed.

Lemma init_ok : state_ok init.
Proof. repeat split; constructor. Qed.

Lemma run_ok (evs : list Event) : forall s, state_ok s -> state_ok (run s evs).
Proof.
  induction evs as [|e evs IH]; intros s Hs; [exact Hs|].
  rewrite run_cons. apply IH, step_ok, Hs.
Qed.

Lemma step_evolves (s : State) (e : Event) :
  table_evolves (orders s) (orders (fst (step s e))).
Proof.
  destruct e as [|items customer seed now|oid txid|env]; simpl.
  - apply table_evolves_refl.
  - destruct (post_orders_cases (orders s) items customer seed now)
      as [[_ ->]|[_ ->]]; simpl; [|apply table_evolves_refl].
    intros o Ho. exists o. split; [apply in_or_app; left; exact Ho|apply evolves_refl].
  - destruct (verify_payment_request oid txid); apply table_evolves_refl.
  - destruct (timers s) as [|[oid txid] rest]; simpl; [apply table_evolves_refl|].
    destruct (callback_table env (orders s) (world s) oid txid) as [->|[_ ->]];
      [apply table_evolves_refl|apply update_paid_evolves].
Qed.

Lemma run_evolves (evs : list Event) :
  forall s, table_evolves (orders s) (orders (run s evs)).
Proof.
  induction evs as [|e evs IH]; intros s; [apply table_evolves_refl|].
  rewrite run_cons. eapply table_evolves_trans; [apply step_evolves|apply IH].
Qed.

Lemma row_ok_cases (o : Order.t) :
  row_ok o ->
  (Order.status o = pending /\ Order.transaction_id o = None) \/
  (Order.status o = paid /\
   exists txid, Order.transaction_id o = Some txid /\ accepted txid).
Proof.
  unfold row_ok. destruct (Order.status o), (Order.transaction_id o) as [t|];
    intros H; try contradiction; [left|right]; eauto.
Qed.

Lemma order_survives (s : State) (evs : list Event) (oid : string) (o : Order.t) :
  select_by_id (orders s) oid = Some o ->
  exists o', select_by_id (orders (run s evs)) oid = Some o'.
Proof.
  intros Ho. apply select_by_id_Some in Ho as [Hin Hid].
  destruct (run_evolves evs s o Hin) as (o' & Hin' & Hid' & _).
  destruct (select_by_id (orders (run s evs)) oid) as [o1|] eqn:E; [eauto|].
  apply select_by_id_None in E. exfalso. apply E.
  apply in_map_iff. exists o'. split; [congruence|exact Hin'].
Qed.

Lemma set_paid_same_data (txid oid : string) (o : Order.t) :
  same_data o (set_paid txid oid o).
Proof. unfold set_paid. destruct (has_id oid o); repeat split. Qed.

Lemma same_data_refl (o : Order.t) : same_data o o.
Proof. repeat split. Qed.

Lemma same_data_trans (o1 o2 o3 : Order.t) :
  same_data o1 o2 -> same_data o2 o3 -> same_data o1 o3.
Proof.
  unfold same_data. intros (A1 & A2 & A3 & A4 & A5 & A6) (B1 & B2 & B3 & B4 & B5 & B6).
  repeat split; congruence.
Qed.

Lemma step_keeps_data (s : State) (e : Event) (oid : string) (o : Order.t) :
  select_by_id (orders s) oid = Some o ->
  exists o', select_by_id (orders (fst (step s e))) oid = Some o' /\
             same_data o o'.
Proof.
  intros Ho. destruct e as [|items customer seed now|oid1 txid|env]; simpl.
  - exists o. split; [exact Ho|apply same_data_refl].
  - exists o. split; [|apply same_data_refl].
    destruct (post_orders_cases (orders s) items customer seed now)
      as [[_ ->]|[_ ->]]; simpl; [|exact Ho].
    rewrite select_by_id_app, Ho. reflexivity.
  - exists o. split; [|apply same_data_refl].
    destruct (verify_payment_request oid1 txid); exact Ho.
  - destruct (timers s) as [|[oid1 txid] rest]; simpl.
    + exists o. split; [exact Ho|apply same_data_refl].
    + destruct (callback_table env (orders s) (world s) oid1 txid)
        as [->|[_ ->]].
      * exists o. split; [exact Ho|apply same_data_refl].
      * rewrite select_by_id_update, Ho. simpl. eexists.
        split; [reflexivity|apply set_paid_same_data].
Qed.

Lemma run_keeps_data (s : State) (evs : list Event) (oid : string) (o : Order.t) :
  select_by_id (orders s) oid = Some o ->
  exists o', select_by_id (orders (run s evs)) oid = Some o' /\ same_data o o'.
Proof.
  revert s o. induction evs as [|e evs IH]; intros s o Ho.
  - exists o. split; [exact Ho|apply same_data_refl].
  - rewrite run_cons.
    destruct (step_keeps_data s e oid o Ho) as (o1 & Ho1 & Hd1).
    destruct (IH _ _ Ho1) as (o2 & Ho2 & Hd2).
    exists o2. split; [exact Ho2|eapply same_data_trans; eassumption].
Qed.

(** ** Verification requests *)

(** C2 at the failing input: a cart whose total is NaN is stored with a NULL
    total; with both credentials set, verifying that pending order with an
    accepted transaction id marks the row paid and is then answered 500,
    because [sendOrderEmail] throws while building the html. *)
Theorem accepted_verification_answered_500 :
  (exists o, select_by_id (orders (run init null_total_paid)) "EK-0" = Some o /\
             Order.status o = pending /\ Order.total o = None) /\
  accepted "202600000001" /\
  answers init (null_total_paid ++ [TimerFires mailing])%list
  = [ Some (res_json (JsonCreated "EK-0" S754_nan)); None;
      Some verification_failed ] /\
  (exists o, select_by_id
               (orders (run init (null_total_paid ++ [TimerFires mailing])%list))
               "EK-0" = Some o /\
             Order.status o = paid /\
             Order.transaction_id o = Some "202600000001").
Proof.
  split; [eexists; split; [reflexivity|split; reflexivity]|].
  split; [split; reflexivity|]. split; [reflexivity|].
  eexists. split; [reflexivity|split; reflexivity].
Qed.

(** C3 at the failing input: for the same pending order with a NULL total
    and both credentials set, a 12-digit transaction id that does not start
    with 2026 is never answered ([sendOrderEmail] throws outside any [try]);
    the row stays pending. *)
Theorem rejected_verification_never_answered :
  test_12_digits "123456789012" = true /\
  startsWith "123456789012" "2026" = false /\
  answers init (null_total_refused ++ [TimerFires mailing])%list
  = [ Some (res_json (JsonCreated "EK-0" S754_nan)); None; None ] /\
  (exists o, select_by_id
               (orders (run init (null_total_refused ++ [TimerFires mailing])%list))
               "EK-0" = Some o /\
             Order.status o = pending).
Proof.
  split; [reflexivity|]. split; [reflexivity|]. split; [reflexivity|].
  eexists. split; reflexivity.
Qed.

(** X18. When [sendOrderEmail] returns (the row has a total, or a
    credential is missing), a pending order and an accepted transaction id give 200
    [{success: true}] and a paid row with that transaction id, also when the
    callback runs after any other events [evs]. *)
Theorem verify_payment_accepts_when_notice_returns (env : Env) (s : State)
    (evs : list Event) (orderId transactionId : string) (o : Order.t) :
  select_by_id (orders s) orderId = Some o ->
  Order.status o = pending ->
  test_12_digits transactionId = true ->
  startsWith transactionId "2026" = true ->
  notice_throws env o = false ->
  let h := post_verify_payment env (orders s) (world s) orderId transactionId in
  let s' := run (fst (step s (PostVerifyPayment orderId transactionId))) evs in
  let h' := verify_payment_callback env (orders s') (world s')
              orderId transactionId in
  (response h = Some (mkResponse 200 JsonSuccess) /\
   exists o', select_by_id (table h) orderId = Some o' /\
              Order.status o' = paid /\
              Order.transaction_id o' = Some transactionId) /\
  (response h' = Some (mkResponse 200 JsonSuccess) /\
   exists o', select_by_id (table h') orderId = Some o' /\
              Order.status o' = paid /\
              Order.transaction_id o' = Some transactionId).
Proof.
  intros Ho _ Hfmt Hpre Hquiet h s' h'. subst h h'. split.
  - unfold post_verify_payment. rewrite (request_passes _ _ Hfmt).
    apply (callback_marks_paid _ _ _ _ _ _ Ho Hpre Hquiet).
  - assert (Hs : exists o1, select_by_id (orders s') orderId = Some o1 /\
                            same_data o o1).
    { subst s'. apply run_keeps_data.
      simpl. rewrite (request_passes _ _ Hfmt). exact Ho. }
    destruct Hs as (o1 & Ho1 & Hdata).
    apply (callback_marks_paid _ _ _ _ _ _ Ho1 Hpre).
    unfold notice_throws, has_total in *.
    destruct Hdata as (_ & _ & _ & _ & -> & _). exact Hquiet.
Qed.

Lemma verify_payment_accepts_when_notice_returns_witness :
  (response (post_verify_payment mailing [order7] nothing "EK-7" "202600000001")
   = Some (mkResponse 200 JsonSuccess) /\
   exists o', select_by_id
                (table (post_verify_payment mailing [order7] nothing "EK-7"
                          "202600000001")) "EK-7" = Some o' /\
              Order.status o' = paid /\
              Order.transaction_id o' = Some "202600000001") /\
  (response (verify_payment_callback mailing
               (orders (run (fst (step shop7 (PostVerifyPayment "EK-7" "202600000001")))
                            meanwhile))
               (world (run (fst (step shop7 (PostVerifyPayment "EK-7" "202600000001")))
                           meanwhile))
               "EK-7" "202600000001")
   = Some (mkResponse 200 JsonSuccess) /\
   exists o', select_by_id
                (table (verify_payment_callback mailing
                   (orders (run (fst (step shop7 (PostVerifyPayment "EK-7" "202600000001")))
                                meanwhile))
                   (world (run (fst (step shop7 (PostVerifyPayment "EK-7" "202600000001")))
                               meanwhile))
                   "EK-7" "202600000001")) "EK-7" = Some o' /\
              Order.status o' = paid /\
              Order.transaction_id o' = Some "202600000001").
Proof.
  exact (verify_payment_accepts_when_notice_returns mailing shop7 meanwhile
           "EK-7" "202600000001" order7 eq_refl eq_refl eq_refl eq_refl eq_refl).
Defined.

(** X19. When [sendOrderEmail] returns, a pending order and a 12-digit
    transaction id that does not start with 2026 give 400 and an unchanged
    table: the order is still there, still pending, and a later accepted
    request is answered 200. *)
Theorem verify_payment_rejects_when_notice_returns (env : Env) (db : Table)
    (io : IO) (orderId transactionId : string) (o : Order.t) :
  select_by_id db orderId = Some o ->
  Order.status o = pending ->
  test_12_digits transactionId = true ->
  startsWith transactionId "2026" = false ->
  notice_throws env o = false ->
  let h := post_verify_payment env db io orderId transactionId in
  response h = Some failed_demo_rule /\
  code failed_demo_rule = 400 /\
  table h = db /\
  (exists o', select_by_id (table h) orderId = Some o' /\
              Order.status o' = pending) /\
  (forall retry, accepted retry ->
     response (post_verify_payment env (table h) (effects h) orderId retry)
     = Some (mkResponse 200 JsonSuccess)).
Proof.
  intros Ho Hst Hfmt Hpre Hquiet h. subst h. unfold post_verify_payment.
  rewrite (request_passes _ _ Hfmt), (callback_rejects _ _ _ _ _ _ Ho Hpre).
  rewrite Hquiet. cbn [response table effects]. repeat split.
  - exists o. split; assumption.
  - intros retry [Hfmt' Hpre']. rewrite (request_passes _ _ Hfmt').
    apply (callback_marks_paid _ _ _ _ _ _ Ho Hpre' Hquiet).
Qed.

Lemma verify_payment_rejects_when_notice_returns_witness :
  response (post_verify_payment mailing [order7] nothing "EK-7" "123456789012")
  = Some failed_demo_rule /\
  code failed_demo_rule = 400 /\
  table (post_verify_payment mailing [order7] nothing "EK-7" "123456789012")
  = [order7] /\
  (exists o', select_by_id
                (table (post_verify_payment mailing [order7] nothing "EK-7"
                          "123456789012")) "EK-7" = Some o' /\
              Order.status o' = pending) /\
  (forall retry, accepted retry ->
     response
       (post_verify_payment mailing
          (table (post_verify_payment mailing [order7] nothing "EK-7" "123456789012"))
          (effects (post_verify_payment mailing [order7] nothing "EK-7" "123456789012"))
          "EK-7" retry)
     = Some (mkResponse 200 JsonSuccess)).
Proof.
  exact (verify_payment_rejects_when_notice_returns mailing [order7] nothing
           "EK-7" "123456789012" order7 eq_refl eq_refl eq_refl eq_refl eq_refl).
Defined.

(** C5. A transaction id that does not match [^\d{12}$] is answered 400,
    whatever the table holds and whether or not the order exists; the answer
    is given at once, before any timer is set. *)
Theorem verify_payment_bad_format (env : Env) (db : Table) (io : IO) (s : State)
    (orderId transactionId : string) :
  test_12_digits transactionId = false ->
  response (post_verify_payment env db io orderId transactionId) = Some bad_format /\
  code bad_format = 400 /\
  table (post_verify_payment env db io orderId transactionId) = db /\
  step s (PostVerifyPayment orderId transactionId) = (s, Some bad_format).
Proof.
  intros Hfmt. unfold post_verify_payment, step.
  rewrite (request_fails _ _ Hfmt). repeat split.
Qed.

Lemma verify_payment_bad_format_witness :
  response (post_verify_payment no_mail [order7] nothing "EK-7" "20261234567")
  = Some bad_format /\
  code bad_format = 400 /\
  table (post_verify_payment no_mail [order7] nothing "EK-7" "20261234567")
  = [order7] /\
  step init (PostVerifyPayment "EK-7" "20261234567") = (init, Some bad_format).
Proof.
  exact (verify_payment_bad_format no_mail [order7] nothing init "EK-7"
           "20261234567" eq_refl).
Defined.

(** C6. When the transaction id passes the 12-digit check and no order has
    the given id, verify-payment answers 404, whether or not the transaction
    id starts with 2026. *)
Theorem verify_payment_unknown_order (env : Env) (db : Table) (io : IO)
    (orderId transactionId : string) :
  test_12_digits transactionId = true ->
  select_by_id db orderId = None ->
  response (post_verify_payment env db io orderId transactionId)
  = Some order_not_found /\
  code order_not_found = 404 /\
  table (post_verify_payment env db io orderId transactionId) = db.
Proof.
  intros Hfmt Hnone. unfold post_verify_payment.
  rewrite (request_passes _ _ Hfmt), (callback_not_found _ _ _ _ _ Hnone).
  repeat split.
Qed.

Lemma verify_payment_unknown_order_witness :
  response (post_verify_payment no_mail [order7] nothing "EK-8" "202600000001")
  = Some order_not_found /\
  code order_not_found = 404 /\
  table (post_verify_payment no_mail [order7] nothing "EK-8" "202600000001")
  = [order7].
Proof.
  exact (verify_payment_unknown_order no_mail [order7] nothing "EK-8"
           "202600000001" eq_refl eq_refl).
Defined.

(** C10. A verify-payment request that is rejected (malformed transaction
    id, unknown order, or the 2026 rule) leaves the table exactly as it was
    and is answered 400 or 404, or not at all when [sendOrderEmail] throws;
    in the remaining case the table is the result of the one UPDATE and the
    answer is 200, or 500 when [sendOrderEmail] throws. *)
Theorem verify_payment_only_write (env : Env) (db : Table) (io : IO)
    (orderId transactionId : string) :
  let h := post_verify_payment env db io orderId transactionId in
  (test_12_digits transactionId = false \/
   select_by_id db orderId = None \/
   startsWith transactionId "2026" = false ->
   table h = db /\
   (response h = Some bad_format \/ response h = Some order_not_found \/
    response h = Some failed_demo_rule \/ response h = None)) /\
  (test_12_digits transactionId = true /\
   select_by_id db orderId <> None /\
   startsWith transactionId "2026" = true ->
   table h = fst (update_paid db transactionId orderId) /\
   (response h = Some (mkResponse 200 JsonSuccess) \/
    response h = Some verification_failed)).
Proof.
  intros h. subst h. unfold post_verify_payment.
  destruct (test_12_digits transactionId) eqn:Hfmt.
  - rewrite (request_passes _ _ Hfmt).
    destruct (select_by_id db orderId) as [o|] eqn:Ho.
    + destruct (startsWith transactionId "2026") eqn:Hpre.
      * rewrite (callback_accepts _ _ _ _ _ _ Ho Hpre). cbn [table response].
        split.
        -- intros [H|[H|H]]; discriminate.
        -- intros _. split; [reflexivity|].
           destruct (notice_throws env o); [right|left]; reflexivity.
      * rewrite (callback_rejects _ _ _ _ _ _ Ho Hpre). cbn [table response].
        split.
        -- intros _. split; [reflexivity|].
           destruct (notice_throws env o); right; right; [right|left]; reflexivity.
        -- intros (_ & _ & H). discriminate.
    + rewrite (callback_not_found _ _ _ _ _ Ho). split.
      * intros _. split; [reflexivity|]. right. left. reflexivity.
      * intros (_ & H & _). congruence.
  - rewrite (request_fails _ _ Hfmt). split.
    + intros _. split; [reflexivity|]. left. reflexivity.
    + intros (H & _). discriminate.
Qed.

(** ** The notifier and the answers *)

(** C9 at the failing input: for the pending order with a NULL total, the
    answer depends on the mail environment. Without credentials the send is
    skipped and the request is answered 200 (or 400 under the 2026 rule); with
    credentials [sendOrderEmail] throws before any send, and the answer is
    500 (or none). *)
Theorem mail_credentials_change_the_answer :
  let db := orders (run init null_total_paid) in
  response (post_verify_payment no_mail db nothing "EK-0" "202600000001")
  = Some (mkResponse 200 JsonSuccess) /\
  response (post_verify_payment mailing db nothing "EK-0" "202600000001")
  = Some verification_failed /\
  response (post_verify_payment no_mail db nothing "EK-0" "123456789012")
  = Some failed_demo_rule /\
  response (post_verify_payment mailing db nothing "EK-0" "123456789012")
  = None.
Proof. repeat split. Qed.

Lemma callback_any_env env1 env2 db io1 io2 oid txid :
  (forall o, select_by_id db oid = Some o -> has_total o = true) ->
  response (verify_payment_callback env1 db io1 oid txid)
  = response (verify_payment_callback env2 db io2 oid txid) /\
  table (verify_payment_callback env1 db io1 oid txid)
  = table (verify_payment_callback env2 db io2 oid txid).
Proof.
  intros Htotal.
  assert (Hq : forall env o, select_by_id db oid = Some o ->
                             notice_throws env o = false).
  { intros env o Ho. unfold notice_throws. rewrite (Htotal o Ho).
    apply andb_false_r. }
  destruct (select_by_id db oid) as [o|] eqn:Ho.
  - destruct (startsWith txid "2026") eqn:Hpre.
    + rewrite !(callback_accepts _ _ _ _ _ _ Ho Hpre), !(Hq _ o eq_refl).
      split; reflexivity.
    + rewrite !(callback_rejects _ _ _ _ _ _ Ho Hpre), !(Hq _ o eq_refl).
      split; reflexivity.
  - rewrite !(callback_not_found _ _ _ _ _ Ho). split; reflexivity.
Qed.

(** X20. When the order a verification names has a total (or does not
    exist), the answer and the table are the same under any two mail environments:
    whether the send is skipped, succeeds or fails. *)
Theorem answers_same_when_total_present (env1 env2 : Env) (db : Table)
    (io1 io2 : IO) (orderId transactionId : string) :
  (forall o, select_by_id db orderId = Some o -> has_total o = true) ->
  response (post_verify_payment env1 db io1 orderId transactionId)
  = response (post_verify_payment env2 db io2 orderId transactionId) /\
  table (post_verify_payment env1 db io1 orderId transactionId)
  = table (post_verify_payment env2 db io2 orderId transactionId).
Proof.
  intros Htotal. unfold post_verify_payment.
  destruct (verify_payment_request orderId transactionId) as [r|oid txid] eqn:Hreq;
    [split; reflexivity|].
  unfold verify_payment_request in Hreq.
  destruct (test_12_digits transactionId); [|discriminate].
  simpl in Hreq. injection Hreq as <- <-.
  apply callback_any_env, Htotal.
Qed.

Lemma answers_same_when_total_present_witness :
  response (post_verify_payment no_mail [order7] nothing "EK-7" "202600000001")
  = response (post_verify_payment mailing [order7] nothing "EK-7" "202600000001") /\
  table (post_verify_payment no_mail [order7] nothing "EK-7" "202600000001")
  = table (post_verify_payment mailing [order7] nothing "EK-7" "202600000001").
Proof.
  apply (answers_same_when_total_present no_mail mailing [order7] nothing
           nothing "EK-7" "202600000001").
  intros o Ho. injection Ho as <-. reflexivity.
Defined.



(** ** Order lifecycle *)

(** C4, as the code has it. In every state the server can reach: each row is
    either pending with no transaction id or paid with a transaction id that
    passed both checks; whatever happens next, the row is still there under
    its id and, if it was paid, is still paid; a newly created order is
    pending with no transaction id; and an accepted verification of an
    existing order, pending or already paid, leaves it paid with the
    transaction id of that request. *)
Theorem order_lifecycle (evs : list Event) :
  let s := run init evs in
  (forall o, In o (orders s) ->
     (Order.status o = pending /\ Order.transaction_id o = None) \/
     (Order.status o = paid /\
      exists txid, Order.transaction_id o = Some txid /\ accepted txid)) /\
  (forall evs' o, In o (orders s) ->
     exists o', In o' (orders (run s evs')) /\
                Order.id o' = Order.id o /\
                (Order.status o = paid -> Order.status o' = paid)) /\
  (forall items customer seed now,
     select_by_id (orders s) (orderId_of seed) = None ->
     exists o,
       select_by_id (snd (post_orders (orders s) items customer seed now))
                    (orderId_of seed) = Some o /\
       Order.status o = pending /\ Order.transaction_id o = None) /\
  (forall env orderId transactionId o,
     select_by_id (orders s) orderId = Some o ->
     accepted transactionId ->
     exists o',
       select_by_id
         (table (verify_payment_callback env (orders s) (world s)
                   orderId transactionId)) orderId = Some o' /\
       Order.status o' = paid /\
       Order.transaction_id o' = Some transactionId).
Proof.
  intros s. subst s. repeat split.
  - intros o Ho. apply row_ok_cases.
    destruct (run_ok evs init init_ok) as (Hrows & _).
    rewrite Forall_forall in Hrows. apply Hrows, Ho.
  - intros evs' o Ho.
    destruct (run_evolves evs' (run init evs) o Ho) as (o' & Ho' & Hid & _ & Hst).
    exists o'. repeat split; assumption.
  - intros items customer seed now Hfresh.
    destruct (post_orders_cases (orders (run init evs)) items customer seed now)
      as [[_ ->]|[Hno _]]; [|contradiction].
    simpl snd. rewrite select_by_id_app, Hfresh. simpl.
    unfold has_id; simpl. rewrite String.eqb_refl. eexists. repeat split.
  - intros env oid txid o Ho [_ Hpre].
    rewrite (callback_accepts _ _ _ _ _ _ Ho Hpre). cbn [table].
    rewrite select_by_id_update, Ho. simpl. eexists. split; [reflexivity|].
    apply select_by_id_Some in Ho as [_ Hid]. apply has_id_true in Hid.
    unfold set_paid. rewrite Hid. split; reflexivity.
Qed.

(** A second accepted verification of a paid order replaces its transaction
    id: the UPDATE does not look at the status. *)
Lemma paid_order_transaction_id_overwritten : ~ transaction_id_set_once.
Proof.
  intros H.
  specialize (H pay_once pay_again
    (Order.mk "EK-0" "Alice Roe" "alice@example.org" "1 Main St"
       (Some (num 20998)) paid
       (Some "202600000001") "2026-03-01 10:00:00")
    (Order.mk "EK-0" "Alice Roe" "alice@example.org" "1 Main St"
       (Some (num 20998)) paid
       (Some "202600000002") "2026-03-01 10:00:00")
    eq_refl eq_refl eq_refl).
  discriminate H.
Qed.

(** ** Generated ids and the primary key *)

(** Two creations whose products [Math.random() * 1000000] have the same
    floor (here the draws 0 and 2^-53) generate the same id; the second
    insert then fails and is answered 500. *)
Lemma order_id_collision :
  ~ generated_ids_unique /\
  answers init two_orders =
  [ Some (res_json (JsonCreated "EK-0" (num 20998)));
    Some (res_status_json 500 (JsonError "Failed to create order")) ].
Proof.
  split; [|reflexivity].
  intros H. specialize (H two_orders).
  inversion H as [|x l Hnotin _]; subst. apply Hnotin. left. reflexivity.
Qed.

(** C8, as the code has it. Every generated id is ["EK-"] followed by the
    decimal digits of an integer between 0 and 999999; the ids of the orders
    the server keeps are pairwise distinct in every state it can reach; and a
    creation that generates an id already in the table is answered 500 and
    leaves the table unchanged. *)
Theorem order_ids (seed : Z) (evs : list Event) :
  (exists n, 0 <= n <= 999999 /\ orderId_of seed = "EK-" ++ string_of_Z n) /\
  NoDup (map Order.id (orders (run init evs))) /\
  (forall db items customer now,
     select_by_id db (orderId_of seed) <> None ->
     post_orders db items customer seed now =
     (res_status_json 500 (JsonError "Failed to create order"), db)).
Proof.
  repeat split.
  - exists (order_number seed). split; [apply order_number_range|reflexivity].
  - apply (run_ok evs init init_ok).
  - intros db items customer now Htaken.
    destruct (post_orders_cases db items customer seed now) as [[Hf _]|[_ H]];
      [contradiction|exact H].
Qed.

(** * Further properties of the handlers *)

(** ** Creation, seen from the table *)

Lemma post_orders_fresh (db : Table) items customer seed now :
  select_by_id db (orderId_of seed) = None ->
  post_orders db items customer seed now =
  (res_json (JsonCreated (orderId_of seed) (calculatedTotal items)),
   (db ++ [new_order_row items customer seed now])%list).
Proof.
  intros Hfresh.
  destruct (post_orders_cases db items customer seed now) as [[_ H]|[Hno _]];
    [exact H|contradiction].
Qed.

Lemma select_new_row (db : Table) items customer seed now :
  select_by_id db (orderId_of seed) = None ->
  select_by_id (db ++ [new_order_row items customer seed now])%list
               (orderId_of seed)
  = Some (new_order_row items customer seed now).
Proof.
  intros Hfresh. rewrite select_by_id_app, Hfresh. simpl.
  unfold has_id; simpl. rewrite String.eqb_refl. reflexivity.
Qed.

(** ** Carts without a known item *)

(** X3. A cart with no item of the catalog (the empty cart included) is not
    refused: with a fresh id the order is created and answered with total
    0. *)
Theorem post_orders_nothing_known (db : Table) (items : list Item.t)
    (customer : Customer.t) (seed : Z) (now : string) :
  (forall it, In it items -> in_catalog (Item.id it) = false) ->
  select_by_id db (orderId_of seed) = None ->
  fst (post_orders db items customer seed now)
  = res_json (JsonCreated (orderId_of seed) (num 0)) /\
  exists o, select_by_id (snd (post_orders db items customer seed now))
                         (orderId_of seed) = Some o /\
            Order.total o = Some (num 0).
Proof.
  intros Hunknown Hfresh.
  assert (H0 : spec_total items = num 0).
  { unfold spec_total. induction items as [|it items IH]; [reflexivity|].
    simpl. rewrite (Hunknown it (or_introl eq_refl)).
    apply IH. intros it' Hin. apply Hunknown. right. exact Hin. }
  rewrite (post_orders_fresh _ items customer seed now Hfresh). simpl.
  rewrite (select_new_row _ items customer seed now Hfresh).
  rewrite calculatedTotal_spec, H0. split; [reflexivity|].
  eexists. split; [reflexivity|]. simpl. rewrite calculatedTotal_spec, H0.
  reflexivity.
Qed.

Lemma post_orders_nothing_known_witness :
  fst (post_orders [] [item 77 5; item 0 1] alice 0 "2026-03-01 10:00:00")
  = res_json (JsonCreated "EK-0" (num 0)) /\
  exists o, select_by_id
              (snd (post_orders [] [item 77 5; item 0 1] alice 0
                      "2026-03-01 10:00:00")) "EK-0" = Some o /\
            Order.total o = Some (num 0).
Proof.
  apply (post_orders_nothing_known [] [item 77 5; item 0 1] alice 0
           "2026-03-01 10:00:00"); [|reflexivity].
  intros it [<-|[<-|[]]]; reflexivity.
Defined.

(** ** Insert and lookup *)

(** X4. After a creation with a fresh id, looking the new id up gives a row
    holding what was submitted: first and last name joined by one space,
    email, address, the clock reading as [created_at]; the table has exactly
    one row more. *)
Theorem post_orders_stores_customer (db : Table) (items : list Item.t)
    (customer : Customer.t) (seed : Z) (now : string) :
  select_by_id db (orderId_of seed) = None ->
  let db' := snd (post_orders db items customer seed now) in
  List.length db' = S (List.length db) /\
  exists o, select_by_id db' (orderId_of seed) = Some o /\
    Order.customer_name o
    = Customer.firstName customer ++ " " ++ Customer.lastName customer /\
    Order.email o = Customer.email customer /\
    Order.address o = Customer.address customer /\
    Order.created_at o = now.
Proof.
  intros Hfresh db'. subst db'.
  rewrite (post_orders_fresh _ items customer seed now Hfresh). simpl snd.
  rewrite (select_new_row _ items customer seed now Hfresh). split.
  - rewrite length_app. simpl. lia.
  - eexists. split; [reflexivity|]. repeat split.
Qed.

Lemma post_orders_stores_customer_witness :
  let db' := snd (post_orders [order7] basket alice 0 "2026-03-01 10:00:09") in
  List.length db' = S (List.length [order7]) /\
  exists o, select_by_id db' (orderId_of 0) = Some o /\
    Order.customer_name o
    = Customer.firstName alice ++ " " ++ Customer.lastName alice /\
    Order.email o = Customer.email alice /\
    Order.address o = Customer.address alice /\
    Order.created_at o = "2026-03-01 10:00:09".
Proof.
  exact (post_orders_stores_customer [order7] basket alice 0
           "2026-03-01 10:00:09" eq_refl).
Defined.

(** X5. A creation, whether it succeeds or fails, never alters an order
    that is already stored: every id that could be looked up before gives
    the same row afterwards. *)
Theorem post_orders_keeps_rows (db : Table) (items : list Item.t)
    (customer : Customer.t) (seed : Z) (now : string)
    (oid : string) (o : Order.t) :
  select_by_id db oid = Some o ->
  select_by_id (snd (post_orders db items customer seed now)) oid = Some o.
Proof.
  intros Ho.
  destruct (post_orders_cases db items customer seed now) as [[_ ->]|[_ ->]];
    simpl snd; [|exact Ho].
  rewrite select_by_id_app, Ho. reflexivity.
Qed.

Lemma post_orders_keeps_rows_witness :
  select_by_id (snd (post_orders [order7; order8] basket alice 0
                       "2026-03-01 10:00:09")) "EK-8" = Some order8.
Proof.
  exact (post_orders_keeps_rows [order7; order8] basket alice 0
           "2026-03-01 10:00:09" "EK-8" order8 eq_refl).
Defined.

(** ** The UPDATE of verify-payment *)

Lemma filter_has_id_unique (db : Table) (oid : string) :
  NoDup (map Order.id db) ->
  (List.length (filter (has_id oid) db) <= 1)%nat.
Proof.
  induction db as [|x db IH]; simpl; intros Hnd; [lia|].
  inversion Hnd as [|y l Hnotin Hnd']; subst.
  destruct (has_id oid x) eqn:E; [|apply IH, Hnd'].
  apply has_id_true in E. simpl.
  destruct (filter (has_id oid) db) as [|z l] eqn:F; [simpl; lia|].
  exfalso. apply Hnotin.
  assert (Hz : In z (filter (has_id oid) db)) by (rewrite F; left; reflexivity).
  apply filter_In in Hz as [Hin Hid]. apply has_id_true in Hid.
  apply in_map_iff. exists z. split; [congruence|exact Hin].
Qed.

(** X6. In every state the server can reach, the UPDATE reports exactly one
    changed row when the order exists and none when it does not; so the
    "Order not found" answer that follows a zero count is never given for an
    order the preceding SELECT found. *)
Theorem update_paid_changes_exact (evs : list Event) (txid oid : string) :
  let db := orders (run init evs) in
  snd (update_paid db txid oid)
  = match select_by_id db oid with Some _ => 1 | None => 0 end.
Proof.
  intros db. subst db.
  destruct (run_ok evs init init_ok) as (_ & _ & Hkey).
  pose proof (filter_has_id_unique (orders (run init evs)) oid Hkey) as Hle.
  destruct (select_by_id (orders (run init evs)) oid) as [o|] eqn:Ho.
  - pose proof (update_paid_changes _ txid oid o Ho) as Hpos.
    apply Z.ltb_lt in Hpos. unfold update_paid in *. simpl snd in *. lia.
  - unfold update_paid. simpl snd. unfold select_by_id in Ho.
    assert (Hnil : filter (has_id oid) (orders (run init evs)) = []).
    { destruct (filter (has_id oid) (orders (run init evs))) as [|z l] eqn:F;
        [reflexivity|].
      assert (Hz : In z (filter (has_id oid) (orders (run init evs))))
        by (rewrite F; left; reflexivity).
      apply filter_In in Hz as [Hin Hid].
      rewrite (find_none _ _ Ho z Hin) in Hid. discriminate. }
    rewrite Hnil. reflexivity.
Qed.

Lemma select_by_id_update_other (db : Table) (txid oid oid' : string) :
  oid' <> oid ->
  select_by_id (fst (update_paid db txid oid)) oid' = select_by_id db oid'.
Proof.
  intros Hne. rewrite select_by_id_update.
  destruct (select_by_id db oid') as [o|] eqn:Ho; [|reflexivity].
  apply select_by_id_Some in Ho as [_ Hid]. simpl. f_equal.
  unfold set_paid. destruct (has_id oid o) eqn:E; [|reflexivity].
  apply has_id_true in E. congruence.
Qed.

(** X7. Whatever a verify-payment request is answered, it leaves every
    other order exactly as it was, and of the order it names it keeps id,
    customer name, email, address, total and creation time. *)
Theorem verify_payment_touches_one_order (env : Env) (db : Table) (io : IO)
    (orderId transactionId : string) (o : Order.t) :
  select_by_id db orderId = Some o ->
  let h := post_verify_payment env db io orderId transactionId in
  (exists o', select_by_id (table h) orderId = Some o' /\ same_data o o') /\
  (forall other, other <> orderId ->
     select_by_id (table h) other = select_by_id db other).
Proof.
  intros Ho h. subst h. unfold post_verify_payment.
  destruct (verify_payment_request orderId transactionId) as [r|oid txid] eqn:Hreq.
  - simpl. split; [exists o; split; [exact Ho|repeat split]|reflexivity].
  - unfold verify_payment_request in Hreq.
    destruct (test_12_digits transactionId); [|discriminate].
    simpl in Hreq. injection Hreq as <- <-.
    destruct (callback_table env db io orderId transactionId) as [->|[_ ->]].
    + split; [exists o; split; [exact Ho|repeat split]|reflexivity].
    + split.
      * rewrite select_by_id_update, Ho. simpl. eexists.
        split; [reflexivity|apply set_paid_same_data].
      * intros other Hne. apply select_by_id_update_other, Hne.
Qed.

Lemma verify_payment_touches_one_order_witness :
  let h := post_verify_payment no_mail [order7; order8] nothing "EK-7"
             "202600000001" in
  (exists o', select_by_id (table h) "EK-7" = Some o' /\ same_data order7 o') /\
  (forall other, other <> "EK-7" ->
     select_by_id (table h) other = select_by_id [order7; order8] other).
Proof.
  exact (verify_payment_touches_one_order no_mail [order7; order8] nothing
           "EK-7" "202600000001" order7 eq_refl).
Defined.

Lemma update_paid_twice (db : Table) (txid1 txid2 oid : string) :
  fst (update_paid (fst (update_paid db txid1 oid)) txid2 oid)
  = fst (update_paid db txid2 oid).
Proof.
  unfold update_paid. simpl. rewrite map_map. apply map_ext. intros o.
  unfold set_paid at 2 3. destruct (has_id oid o) eqn:E.
  - unfold set_paid, has_id. simpl. unfold has_id in E. rewrite E. reflexivity.
  - unfold set_paid. rewrite E. reflexivity.
Qed.

(** X8. The last accepted verification wins: after any earlier
    verify-payment request for the same order, an accepted request leaves
    the table exactly as it would have left it alone. In particular sending
    the same accepted request twice changes nothing the second time. *)
Theorem verify_payment_last_write_wins (env1 env2 : Env) (db : Table)
    (io1 io2 io3 : IO) (orderId earlier transactionId : string) :
  accepted transactionId ->
  table (post_verify_payment env2
           (table (post_verify_payment env1 db io1 orderId earlier)) io2
           orderId transactionId)
  = table (post_verify_payment env2 db io3 orderId transactionId).
Proof.
  intros [Hfmt Hpre].
  assert (Hacc : forall env t io,
    table (post_verify_payment env t io orderId transactionId)
    = fst (update_paid t transactionId orderId)).
  { intros env t io. unfold post_verify_payment.
    rewrite (request_passes _ _ Hfmt).
    destruct (select_by_id t orderId) as [o|] eqn:Ho.
    - rewrite (callback_accepts _ _ _ _ _ _ Ho Hpre). reflexivity.
    - rewrite (callback_not_found _ _ _ _ _ Ho). simpl.
      symmetry. apply update_paid_no_match, Ho. }
  rewrite !Hacc.
  unfold post_verify_payment at 1.
  destruct (verify_payment_request orderId earlier) as [r|oid txid] eqn:Hreq;
    [reflexivity|].
  unfold verify_payment_request in Hreq.
  destruct (test_12_digits earlier); [|discriminate].
  simpl in Hreq. injection Hreq as <- <-.
  destruct (callback_table env1 db io1 orderId earlier) as [->|[_ ->]];
    [reflexivity|apply update_paid_twice].
Qed.

Lemma verify_payment_last_write_wins_witness :
  table (post_verify_payment no_mail
           (table (post_verify_payment no_mail [order7; order8] nothing "EK-7"
                     "202600000001")) nothing "EK-7" "202600000002")
  = table (post_verify_payment no_mail [order7; order8] nothing "EK-7"
             "202600000002").
Proof.
  apply (verify_payment_last_write_wins no_mail no_mail [order7; order8]
           nothing nothing nothing "EK-7" "202600000001" "202600000002").
  split; reflexivity.
Defined.

(** ** Rows over time *)

(** X9. Once an order is stored it can always be looked up again, and its
    id, customer name, email, address, total and creation time never change,
    whatever requests and timers follow. *)
Theorem order_data_never_changes (s : State) (evs : list Event)
    (oid : string) (o : Order.t) :
  select_by_id (orders s) oid = Some o ->
  exists o', select_by_id (orders (run s evs)) oid = Some o' /\ same_data o o'.
Proof. exact (run_keeps_data s evs oid o). Qed.

Lemma order_data_never_changes_witness :
  exists o', select_by_id (orders (run shop7 (meanwhile ++ pay_again)%list)) "EK-7"
             = Some o' /\ same_data order7 o'.
Proof.
  exact (order_data_never_changes shop7 (meanwhile ++ pay_again)%list "EK-7"
           order7 eq_refl).
Defined.

Lemma update_paid_length (db : Table) (txid oid : string) :
  List.length (fst (update_paid db txid oid)) = List.length db.
Proof. unfold update_paid. simpl. apply length_map. Qed.

Lemma callback_not_a_creation env db io oid txid :
  is_created (response (verify_payment_callback env db io oid txid)) = false /\
  List.length (table (verify_payment_callback env db io oid txid))
  = List.length db.
Proof.
  destruct (select_by_id db oid) as [o|] eqn:Ho.
  - destruct (startsWith txid "2026") eqn:Hpre.
    + rewrite (callback_accepts _ _ _ _ _ _ Ho Hpre). cbn [response table].
      split; [destruct (notice_throws env o); reflexivity|apply update_paid_length].
    + rewrite (callback_rejects _ _ _ _ _ _ Ho Hpre). cbn [response table].
      split; [destruct (notice_throws env o); reflexivity|reflexivity].
  - rewrite (callback_not_found _ _ _ _ _ Ho). split; reflexivity.
Qed.

Lemma step_row_count (s : State) (e : Event) :
  List.length (orders (fst (step s e)))
  = (List.length (orders s) + if is_created (snd (step s e)) then 1 else 0)%nat.
Proof.
  destruct e as [|items customer seed now|oid txid|env]; simpl.
  - lia.
  - destruct (post_orders_cases (orders s) items customer seed now)
      as [[_ ->]|[_ ->]]; simpl; [rewrite length_app; simpl; lia|lia].
  - unfold verify_payment_request.
    destruct (test_12_digits txid); simpl; lia.
  - destruct (timers s) as [|[oid txid] rest]; simpl; [lia|].
    destruct (callback_not_a_creation env (orders s) (world s) oid txid)
      as [-> ->]. lia.
Qed.

(** X10. Rows are never deleted and appear only through creation: after
    any sequence of events the table holds as many rows as it held before
    plus one for each creation that was answered 200. *)
Theorem row_count_is_created_count (s : State) (evs : list Event) :
  List.length (orders (run s evs))
  = (List.length (orders s) + created_count (answers s evs))%nat.
Proof.
  revert s. induction evs as [|e evs IH]; intros s.
  - simpl. unfold created_count. simpl. lia.
  - rewrite run_cons, IH, step_row_count. simpl answers.
    unfold created_count. simpl filter.
    destruct (is_created (snd (step s e))); simpl; lia.
Qed.

(** ** The two tests on a transaction id *)

(** X11. The transaction ids that verify-payment accepts are exactly the
    strings made of 2026 followed by eight decimal digits. *)
Theorem accepted_shape (txid : string) :
  accepted txid <->
  exists rest, txid = "2026" ++ rest /\
               String.length rest = 8%nat /\
               forallb is_digit (list_ascii_of_string rest) = true.
Proof.
  unfold accepted, test_12_digits, startsWith. split.
  - intros [Hfmt Hpre].
    destruct txid as [|a1 [|a2 [|a3 [|a4 rest]]]]; cbn [String.prefix] in Hpre;
      try discriminate;
      repeat match type of Hpre with
             | context [ascii_dec ?a ?b] =>
                 destruct (ascii_dec a b); [subst|discriminate]
             end; try discriminate.
    exists rest. apply andb_true_iff in Hfmt as [Hlen Hdig].
    apply Nat.eqb_eq in Hlen. simpl in Hlen, Hdig.
    repeat split; [lia|exact Hdig].
  - intros (rest & -> & Hlen & Hdig). split.
    + apply andb_true_iff. split.
      * apply Nat.eqb_eq. simpl. lia.
      * simpl. exact Hdig.
    + simpl. repeat (destruct (ascii_dec _ _); [|congruence]).
      destruct rest; reflexivity.
Qed.

(** ** Generated ids *)

Lemma Z_to_int_proper (n : Z) :
  Z.to_int n <> Decimal.Pos Decimal.Nil /\ Z.to_int n <> Decimal.Neg Decimal.Nil.
Proof.
  destruct n as [|p|p]; unfold Z.to_int; split; try discriminate;
    intros H; apply (DecimalPos.Unsigned.to_uint_nonnil p); congruence.
Qed.

Lemma string_of_Z_inj (a b : Z) : string_of_Z a = string_of_Z b -> a = b.
Proof.
  unfold string_of_Z. intros H.
  destruct (Z_to_int_proper a) as [Ha1 Ha2].
  destruct (Z_to_int_proper b) as [Hb1 Hb2].
  pose proof (NilZero.isi (Z.to_int a) Ha1 Ha2) as Ia.
  pose proof (NilZero.isi (Z.to_int b) Hb1 Hb2) as Ib.
  rewrite H in Ia. rewrite Ia in Ib. injection Ib as Hab.
  apply DecimalZ.to_int_inj, Hab.
Qed.

(** X12. Two creations generate the same id exactly when the floors of
    their products [Math.random() * 1000000] are equal: the decimal text
    after EK- determines the number. *)
Theorem orderId_of_same_iff (seed1 seed2 : Z) :
  orderId_of seed1 = orderId_of seed2 <->
  order_number seed1 = order_number seed2.
Proof.
  unfold orderId_of. split.
  - intros H. simpl in H. injection H as H. apply string_of_Z_inj, H.
  - intros ->. reflexivity.
Qed.

(** X13. Every number from 0 to 999999 is the order number of some value
    of [Math.random()], so the generated ids are exactly the million strings
    EK-0 ... EK-999999. *)
Theorem order_number_onto (n0 : Z) :
  0 <= n0 <= 999999 ->
  exists seed, 0 <= seed < random_den /\ order_number seed = n0.
Proof.
  intros Hn0. unfold random_den.
  set (A := n0 * 2 ^ 53 + 2097152).
  set (k := A / 1000000 + 1).
  assert (H53 : 2 ^ 53 = 9007199254740992) by reflexivity.
  assert (Hk : A < k * 1000000 <= A + 1000000).
  { subst k. pose proof (Z.div_mod A 1000000 ltac:(lia)).
    pose proof (Z.mod_pos_bound A 1000000 ltac:(lia)). lia. }
  assert (Hkr : 0 < k < 2 ^ 53) by (subst A; lia).
  exists k. split; [lia|].
  unfold order_number, Math_random, random_den.
  rewrite Z.mod_small, Z.div_small by lia.
  change (- 53 - 0 mod 1022) with (-53).
  destruct k as [|p|p] eqn:Ek; try lia.
  destruct (draw_product p (-53) ltac:(lia) ltac:(lia))
    as (m2 & e2 & Hm2 & He2 & Hj & Hlow & Hupp & ->).
  set (j := Z.min (53 - Zpos (digits2_pos p)) (-53 + 1074)) in *.
  set (E := -53 - j - 33) in *.
  assert (HB : 0 < 2 ^ (j + 33)) by (apply Z.pow_pos_nonneg; lia).
  assert (HL : 2 ^ (- E) = 2 ^ (j + 33) * 2 ^ 53).
  { unfold E. rewrite <- Z.pow_add_r by lia. f_equal. lia. }
  assert (Hscale : 0 < 2 ^ (- E)) by (apply Z.pow_pos_nonneg; lia).
  assert (Hlo : n0 * 2 ^ (- E) < m2 * 2 ^ (e2 - E)).
  { rewrite HL. subst A. nia. }
  assert (Hhi : m2 * 2 ^ (e2 - E) < (n0 + 1) * 2 ^ (- E)).
  { rewrite HL. subst A. nia. }
  destruct m2 as [|m|m]; [nia| |lia].
  destruct (Z_le_gt_dec 0 e2) as [Hs|Hs].
  - exfalso. replace (e2 - E) with (e2 + - E) in Hlo, Hhi by lia.
    rewrite Z.pow_add_r, Z.mul_assoc in Hlo, Hhi by lia.
    apply Z.mul_lt_mono_pos_r in Hlo, Hhi; lia.
  - replace (e2 <=? 1024 - 53) with true by (symmetry; apply Z.leb_le; lia).
    cbn [Math_floor_Z cond_Zopp].
    replace (0 <=? e2) with false by (symmetry; apply Z.leb_gt; lia).
    replace (- E) with ((e2 - E) + - e2) in Hlo, Hhi by lia.
    rewrite Z.pow_add_r in Hlo, Hhi by lia.
    assert (HS : 0 < 2 ^ (e2 - E)) by (apply Z.pow_pos_nonneg; lia).
    assert (0 < 2 ^ (- e2)) by (apply Z.pow_pos_nonneg; lia).
    rewrite (Z.mul_comm (2 ^ (e2 - E))), Z.mul_assoc in Hlo, Hhi.
    apply Z.mul_lt_mono_pos_r in Hlo, Hhi; try exact HS.
    symmetry. apply Z.div_unique with (r := Zpos m - n0 * 2 ^ (- e2)); lia.
Qed.

Lemma order_number_onto_witness :
  exists seed, 0 <= seed < random_den /\ order_number seed = 424242.
Proof.
  apply (order_number_onto 424242). lia.
Defined.

(** ** Mail over time *)

Lemma sendOrderEmail_sent (env : Env) (o : Order.t) (status : MailStatus)
    (io : IO) :
  sent (snd (sendOrderEmail env o status io)) = sent io \/
  (notice_throws env o = false /\
   exists m, sent (snd (sendOrderEmail env o status io)) = (sent io ++ [m])%list /\
             Mail.to m = Order.email o /\
             Mail.subject m = mail_subject o status).
Proof.
  unfold sendOrderEmail, notice_throws, has_total, order_email_html.
  destruct (falsy (GMAIL_USER env) || falsy (GMAIL_APP_PASSWORD env));
    [left; reflexivity|].
  destruct (Order.total o) as [total|]; [|left; reflexivity].
  match goal with |- context [sendMail env ?m] =>
    destruct (sendMail env m);
      [right; split; [reflexivity|exists m; repeat split]|left; reflexivity]
  end.
Qed.

Lemma sendOrderEmail_sent_paid (env : Env) (o : Order.t) (io : IO) :
  sent (if notice_throws env o
        then console_log (snd (sendOrderEmail env (Order.with_status o paid) success io))
                         type_error
        else snd (sendOrderEmail env (Order.with_status o paid) success io))
  = sent (snd (sendOrderEmail env (Order.with_status o paid) success io)).
Proof. destruct (notice_throws env o); reflexivity. Qed.

Lemma mail_matches_app (db : Table) (row : Order.t) (m : Mail.t) :
  mail_matches db m -> mail_matches (db ++ [row])%list m.
Proof.
  intros (o & Hin & H). exists o. split; [apply in_or_app; left; exact Hin|exact H].
Qed.

Lemma mail_matches_update (db : Table) (txid oid : string) (m : Mail.t) :
  mail_matches db m -> mail_matches (fst (update_paid db txid oid)) m.
Proof.
  intros (o & Hin & Hto & Hsub). exists (set_paid txid oid o).
  split; [unfold update_paid; simpl; apply in_map, Hin|].
  unfold set_paid. destruct (has_id oid o); simpl; [|auto].
  split; [exact Hto|]. destruct Hsub as [[Hs _]|Hs]; [left; split; auto|right; exact Hs].
Qed.

Lemma callback_mail (env : Env) (db : Table) (io : IO) (oid txid : string) :
  Forall (mail_matches db) (sent io) ->
  Forall (mail_matches (table (verify_payment_callback env db io oid txid)))
         (sent (effects (verify_payment_callback env db io oid txid))).
Proof.
  intros Hinv. destruct (select_by_id db oid) as [o|] eqn:Ho.
  - pose proof (select_by_id_Some _ _ _ Ho) as [Hin Hid].
    destruct (startsWith txid "2026") eqn:Hpre.
    + rewrite (callback_accepts _ _ _ _ _ _ Ho Hpre). cbn [table effects].
      rewrite sendOrderEmail_sent_paid.
      assert (Hold : Forall (mail_matches (fst (update_paid db txid oid))) (sent io)).
      { eapply Forall_impl; [|exact Hinv]. intros m. apply mail_matches_update. }
      destruct (sendOrderEmail_sent env (Order.with_status o paid) success io)
        as [->|(_ & m & -> & Hto & Hsub)]; [exact Hold|].
      apply Forall_app. split; [exact Hold|]. constructor; [|constructor].
      exists (set_paid txid oid o).
      split; [unfold update_paid; simpl; apply in_map, Hin|].
      apply has_id_true in Hid. unfold set_paid. rewrite Hid. simpl.
      split; [exact Hto|]. left. split; [exact Hsub|reflexivity].
    + rewrite (callback_rejects _ _ _ _ _ _ Ho Hpre). cbn [table effects].
      destruct (sendOrderEmail_sent env o failed io)
        as [->|(_ & m & -> & Hto & Hsub)]; [exact Hinv|].
      apply Forall_app. split; [exact Hinv|]. constructor; [|constructor].
      exists o. split; [exact Hin|]. split; [exact Hto|]. right. exact Hsub.
  - rewrite (callback_not_found _ _ _ _ _ Ho). exact Hinv.
Qed.

Lemma step_mail (s : State) (e : Event) :
  Forall (mail_matches (orders s)) (sent (world s)) ->
  Forall (mail_matches (orders (fst (step s e)))) (sent (world (fst (step s e)))).
Proof.
  intros Hinv. destruct e as [|items customer seed now|oid txid|env]; simpl.
  - exact Hinv.
  - destruct (post_orders_cases (orders s) items customer seed now)
      as [[_ ->]|[_ ->]]; simpl; [|exact Hinv].
    eapply Forall_impl; [|exact Hinv]. intros m. apply mail_matches_app.
  - destruct (verify_payment_request oid txid); exact Hinv.
  - destruct (timers s) as [|[oid txid] rest]; simpl; [exact Hinv|].
    apply callback_mail, Hinv.
Qed.

(** X14. Every mail the server has delivered belongs to a stored order: it
    is addressed to the email kept with that order and its subject names
    that order's id; and a confirmation ("Order Confirmed") is only ever
    delivered for an order that is stored as paid. *)
Theorem delivered_mail_matches_orders (evs : list Event) :
  Forall (mail_matches (orders (run init evs))) (sent (world (run init evs))).
Proof.
  assert (H : forall s, Forall (mail_matches (orders s)) (sent (world s)) ->
                        Forall (mail_matches (orders (run s evs)))
                               (sent (world (run s evs)))).
  { induction evs as [|e evs IH]; intros s Hs; [exact Hs|].
    rewrite run_cons. apply IH, step_mail, Hs. }
  apply H. constructor.
Qed.

Lemma callback_mail_count (env : Env) (db : Table) (io : IO) (oid txid : string) :
  (List.length (sent (effects (verify_payment_callback env db io oid txid)))
   <= List.length (sent io)
      + if after_notice (response (verify_payment_callback env db io oid txid))
        then 1 else 0)%nat.
Proof.
  destruct (select_by_id db oid) as [o|] eqn:Ho.
  - destruct (startsWith txid "2026") eqn:Hpre.
    + rewrite (callback_accepts _ _ _ _ _ _ Ho Hpre). cbn [response effects].
      rewrite sendOrderEmail_sent_paid.
      destruct (sendOrderEmail_sent env (Order.with_status o paid) success io)
        as [->|(Hn & m & -> & _)]; [lia|].
      rewrite notice_throws_paid in Hn. rewrite Hn, length_app. simpl. lia.
    + rewrite (callback_rejects _ _ _ _ _ _ Ho Hpre). cbn [response effects].
      destruct (sendOrderEmail_sent env o failed io)
        as [->|(Hn & m & -> & _)]; [lia|].
      rewrite Hn, length_app. simpl. lia.
  - rewrite (callback_not_found _ _ _ _ _ Ho). simpl. lia.
Qed.

Lemma step_mail_count (s : State) (e : Event) :
  (List.length (sent (world (fst (step s e))))
   <= List.length (sent (world s))
      + if after_notice (snd (step s e)) then 1 else 0)%nat.
Proof.
  destruct e as [|items customer seed now|oid txid|env]; simpl.
  - lia.
  - destruct (post_orders (orders s) items customer seed now); simpl. lia.
  - destruct (verify_payment_request oid txid); simpl; lia.
  - destruct (timers s) as [|[oid txid] rest]; simpl; [lia|].
    apply callback_mail_count.
Qed.

(** X15. The server delivers at most one mail for each verification it
    answers with success or with the 2026-rule failure, and none for any
    other answer: listing, creation, a malformed transaction id and an
    unknown order never cause a mail. *)
Theorem mail_count_bounded (s : State) (evs : list Event) :
  (List.length (sent (world (run s evs)))
   <= List.length (sent (world s))
      + List.length (filter after_notice (answers s evs)))%nat.
Proof.
  revert s. induction evs as [|e evs IH]; intros s; [simpl; lia|].
  rewrite run_cons. specialize (IH (fst (step s e))).
  pose proof (step_mail_count s e) as Hstep.
  simpl answers. simpl filter.
  destruct (after_notice (snd (step s e))); simpl; lia.
Qed.

Lemma sendOrderEmail_delivers (env : Env) (order : Order.t)
    (status : MailStatus) (io : IO) :
  falsy (GMAIL_USER env) = false ->
  falsy (GMAIL_APP_PASSWORD env) = false ->
  has_total order = true ->
  (forall m, sendMail env m = Ok tt) ->
  exists m, sent (snd (sendOrderEmail env order status io)) = (sent io ++ [m])%list /\
            Mail.to m = Order.email order /\
            Mail.subject m = mail_subject order status.
Proof.
  intros Hu Hp Ht Hsend.
  unfold sendOrderEmail, order_email_html. rewrite Hu, Hp. simpl orb. cbv iota.
  unfold has_total in Ht. destruct (Order.total order) as [total|]; [|discriminate].
  rewrite Hsend. eexists. split; [reflexivity|]. split; reflexivity.
Qed.

(** X16. With both credentials set and a transport that delivers, a
    verification of an existing order whose stored total is a number
    (not NULL), with a well-formed transaction id, delivers exactly one
    mail, to the email stored with the order: a confirmation naming the
    order when the id starts with 2026, a failure notice naming it
    otherwise. *)
Theorem verify_payment_notifies (env : Env) (db : Table) (io : IO)
    (orderId transactionId : string) (o : Order.t) :
  select_by_id db orderId = Some o ->
  has_total o = true ->
  test_12_digits transactionId = true ->
  falsy (GMAIL_USER env) = false ->
  falsy (GMAIL_APP_PASSWORD env) = false ->
  (forall m, sendMail env m = Ok tt) ->
  let h := post_verify_payment env db io orderId transactionId in
  exists m, sent (effects h) = (sent io ++ [m])%list /\
            Mail.to m = Order.email o /\
            Mail.subject m =
              if startsWith transactionId "2026"
              then "Order Confirmed - " ++ orderId
              else "Order Payment Failed - " ++ orderId.
Proof.
  intros Ho Ht Hfmt Hu Hp Hsend h. subst h.
  pose proof (select_by_id_Some _ _ _ Ho) as [_ Hid].
  unfold post_verify_payment. rewrite (request_passes _ _ Hfmt).
  destruct (startsWith transactionId "2026") eqn:Hpre.
  - rewrite (callback_accepts _ _ _ _ _ _ Ho Hpre). cbn [effects].
    rewrite sendOrderEmail_sent_paid.
    destruct (sendOrderEmail_delivers env (Order.with_status o paid) success io
                Hu Hp Ht Hsend) as (m & Hs & Hto & Hsub).
    exists m. split; [exact Hs|]. split; [exact Hto|].
    rewrite Hsub. simpl. rewrite Hid. reflexivity.
  - rewrite (callback_rejects _ _ _ _ _ _ Ho Hpre). cbn [effects].
    destruct (sendOrderEmail_delivers env o failed io Hu Hp Ht Hsend)
      as (m & Hs & Hto & Hsub).
    exists m. split; [exact Hs|]. split; [exact Hto|].
    rewrite Hsub. simpl. rewrite Hid. reflexivity.
Qed.

Lemma verify_payment_notifies_witness :
  let h := post_verify_payment mailing [order7] nothing "EK-7" "123456789012" in
  exists m, sent (effects h) = (sent nothing ++ [m])%list /\
            Mail.to m = Order.email order7 /\
            Mail.subject m =
              if startsWith "123456789012" "2026"
              then "Order Confirmed - " ++ "EK-7"
              else "Order Payment Failed - " ++ "EK-7".
Proof.
  apply (verify_payment_notifies mailing [order7] nothing "EK-7" "123456789012"
           order7); reflexivity.
Defined.

(** ** Paid orders and successful answers *)




